(** * sls_memory: the mem0-compatible client over the SLS Memory service

    A shallow embedding of [sls_memory/client.py] and
    [sls_memory/exceptions.py]: the two facades [SLSMemoryClient] and
    [AsyncSLSMemoryClient], the message normalizer, the result flattener
    and the create-store-with-project-fallback flow, followed by the
    properties of the specification that hold of them. *)

From Stdlib Require Import ZArith String List Bool.
From stdpp Require Import base option strings gmap list fin_maps.

Local Open Scope string_scope.
Local Set Warnings "-register-all".

(** ** Python values

    The values the client handles are dynamically typed.  Mappings are
    keyed by strings, as the annotations [Dict[str, ...]] have them.  [PObj]
    is an instance of a class that is not one of the builtins below: a model
    object of the SLS SDK, or anything else a caller hands in.  It carries
    its class name, its data attributes and, when the class has a [to_map]
    method, the mapping that method returns; it has no other method, and
    like any object without [__bool__] or [__len__] it is true. *)

Inductive pyval : Type :=
| PNone
| PBool (b : bool)
| PInt (z : Z)
| PStr (s : string)
| PList (l : list pyval)
| PTuple (l : list pyval)
| PDict (d : gmap string pyval)
| PObj (cls : string) (attrs : gmap string pyval) (to_map : option (gmap string pyval)).

(** [bool(v)], the test behind [if v] and [not v]. *)
Definition truthy (v : pyval) : bool :=
  match v with
  | PNone => false
  | PBool b => b
  | PInt z => negb (Z.eqb z 0)
  | PStr s => negb (String.eqb s "")
  | PList l => match l with [] => false | _ => true end
  | PTuple l => match l with [] => false | _ => true end
  | PDict d => match map_to_list d with [] => false | _ => true end
  | PObj _ _ _ => true
  end.

(** [v is None] *)
Definition is_None (v : pyval) : bool :=
  match v with PNone => true | _ => false end.

(** [type(v).__name__] *)
Definition type_name (v : pyval) : string :=
  match v with
  | PNone => "NoneType"
  | PBool _ => "bool"
  | PInt _ => "int"
  | PStr _ => "str"
  | PList _ => "list"
  | PTuple _ => "tuple"
  | PDict _ => "dict"
  | PObj cls _ _ => cls
  end.

(** [hasattr(v, 'to_map')] *)
Definition hasattr_to_map (v : pyval) : bool :=
  match v with PObj _ _ (Some _) => true | _ => false end.

(** ** Exceptions

    [ValidationError] is the class of [sls_memory/exceptions.py].  The
    builtin classes are the ones the interpreter raises on the paths
    modelled here.  [SLSError text] is whatever the SLS SDK raised, an
    [Exception] whose [str(e)] is [text]. *)

Inductive pyexc : Type :=
| ValidationError (message : string)
| AttributeError (message : string)
| TypeError (message : string)
| ValueError (message : string)
| SLSError (text : string).

Definition is_ValidationError (e : pyexc) : bool :=
  match e with ValidationError _ => true | _ => false end.

(** [str(e)] *)
Definition str_exc (e : pyexc) : string :=
  match e with
  | ValidationError m | AttributeError m | TypeError m | ValueError m => m
  | SLSError t => t
  end.

Inductive result (A : Type) : Type :=
| Ok (a : A)
| Raise (e : pyexc).
Arguments Ok {A} a.
Arguments Raise {A} e.

Definition raises_ValidationError {A} (r : result A) : bool :=
  match r with Raise e => is_ValidationError e | Ok _ => false end.

(** [needle in hay] on strings *)
Fixpoint contains (needle hay : string) : bool :=
  String.prefix needle hay ||
  match hay with
  | EmptyString => false
  | String _ rest => contains needle rest
  end.

(** ** Request and response models of the SLS SDK

    Modelled from the spec: the classes of [alibabacloud_sls20201230.models]
    belong to the SDK, not to this package.  They are plain records of the
    keyword arguments they are constructed with, one field per item of the
    consumed interface; an optional field that is not passed is absent,
    [None]. *)

Record AddMemoriesRequestMessages := {
  msg_role : pyval;
  msg_content : pyval;
}.

Record AddMemoriesRequest := {
  add_messages : list AddMemoriesRequestMessages;
  add_user_id : pyval;
  add_agent_id : pyval;
  add_app_id : pyval;
  add_run_id : pyval;
  add_metadata : pyval;
  add_infer : pyval;
  add_custom_instructions : pyval;
  add_async_mode : pyval;
}.

Record GetMemoriesRequest := {
  gm_user_id : pyval;
  gm_agent_id : pyval;
  gm_app_id : pyval;
  gm_run_id : pyval;
  gm_limit : pyval;
}.

Record SearchMemoriesRequest := {
  sm_query : pyval;
  sm_user_id : pyval;
  sm_agent_id : pyval;
  sm_app_id : pyval;
  sm_run_id : pyval;
  sm_top_k : pyval;
  sm_rerank : pyval;
}.

Record UpdateMemoryRequest := {
  um_text : pyval;
  um_metadata : pyval;
}.

Record DeleteMemoriesRequest := {
  dm_user_id : pyval;
  dm_agent_id : pyval;
  dm_app_id : pyval;
  dm_run_id : pyval;
}.

Record CreateMemoryStoreRequest := {
  cms_name : pyval;
  cms_description : pyval;
  cms_custom_instructions : pyval;
  cms_enable_graph : pyval;
  cms_strategy : pyval;
  cms_short_term_ttl : pyval;
}.

Record CreateProjectRequest := {
  cp_project_name : pyval;
  cp_description : pyval;
}.

Record UpdateMemoryStoreRequest := {
  ums_description : pyval;
  ums_custom_instructions : pyval;
  ums_enable_graph : pyval;
  ums_strategy : pyval;
  ums_short_term_ttl : pyval;
}.

(** What an SDK call returns. *)
Record Response := {
  status_code : pyval;
  headers : pyval;
  body : pyval;
}.

(** ** The SLS SDK client

    Modelled from the spec: the client class belongs to the SDK as well.
    [self._client] exposes one blocking method and one [_async] method per
    operation.  [Call Blocking (add_memories p s r)] is
    [self._client.add_memories(p, s, r)] and
    [Call Suspending (add_memories p s r)] is
    [await self._client.add_memories_async(p, s, r)]. *)

Module SLSClient.

Inductive method : Type :=
| add_memories (project memory_store : pyval) (request : AddMemoriesRequest)
| get_memory (project memory_store memory_id : pyval)
| get_memories (project memory_store : pyval) (request : GetMemoriesRequest)
| search_memories (project memory_store : pyval) (request : SearchMemoriesRequest)
| update_memory (project memory_store memory_id : pyval) (request : UpdateMemoryRequest)
| delete_memory (project memory_store memory_id : pyval)
| delete_memories (project memory_store : pyval) (request : DeleteMemoriesRequest)
| get_memory_history (project memory_store memory_id : pyval)
| create_memory_store (project : pyval) (request : CreateMemoryStoreRequest)
| create_project (request : CreateProjectRequest)
| get_memory_store (project memory_store : pyval)
| update_memory_store (project memory_store : pyval) (request : UpdateMemoryStoreRequest)
| delete_memory_store (project memory_store : pyval).

Inductive sched : Type := Blocking | Suspending.

Inductive call : Type := Call (how : sched) (what : method).

Definition what (c : call) : method := let 'Call _ m := c in m.

(** The service behind the client is opaque.  [connect] is the
    constructor [SLSClient(config)]; [respond] answers a call given the
    calls made before it, either raising (the text of the exception) or
    returning a response. *)
Record t := {
  connect : pyval -> string + pyval;
  respond : list call -> call -> string + Response;
}.

Definition is_create_project (c : call) : bool :=
  match what c with create_project _ => true | _ => false end.

Definition is_create_memory_store (c : call) : bool :=
  match what c with create_memory_store _ _ => true | _ => false end.

End SLSClient.

(** ** The client object and the effects of a method

    A method runs against the client object [this] and the log of SDK
    calls made so far; it returns a value or raises, and leaves both
    behind. *)

Record Client := {
  _client : pyval;
  _project : pyval;
  _memory_store : pyval;
}.

Record World := {
  this : Client;
  log : list SLSClient.call;
}.

Definition M (A : Type) : Type := World -> result A * World.

Definition ret {A} (a : A) : M A := fun w => (Ok a, w).

Definition bind {A B} (m : M A) (k : A -> M B) : M B :=
  fun w => match m w with
           | (Ok a, w') => k a w'
           | (Raise e, w') => (Raise e, w')
           end.

Definition raise {A} (e : pyexc) : M A := fun w => (Raise e, w).

Definition lift {A} (r : result A) : M A := fun w => (r, w).

(** [self] *)
Definition self : M Client := fun w => (Ok (this w), w).

(** [try: m  except Exception as e: h e] *)
Definition try_except {A} (m : M A) (h : pyexc -> M A) : M A :=
  fun w => match m w with
           | (Ok a, w') => (Ok a, w')
           | (Raise e, w') => h e w'
           end.

(** One call on [self._client]: it is logged, and the service decides. *)
Definition invoke (sdk : SLSClient.t) (c : SLSClient.call) : M Response :=
  fun w =>
    let w' := {| this := this w; log := log w ++ [c] |} in
    match SLSClient.respond sdk (log w) c with
    | inl text => (Raise (SLSError text), w')
    | inr r => (Ok r, w')
    end.

Declare Scope py_scope.
Delimit Scope py_scope with py.
Notation "'let!' x ':=' m 'in' k" := (bind m (fun x => k))
  (at level 10, x name, m at level 100, k at level 200) : py_scope.
Notation "m ';;' k" := (bind m (fun _ => k))
  (at level 100, k at level 200, right associativity) : py_scope.
Local Open Scope py_scope.

(** ** Builtins used by the flattener *)

(** One element of the iterable given to [dict(...)].  The elements that
    convert are the pairs [[k, x]] and [(k, x)] with [k] a string; any other
    element is refused (CPython raises a TypeError or a ValueError,
    depending on the element). *)
Definition dict_item (v : pyval) : result (string * pyval) :=
  match v with
  | PList [PStr k; x] | PTuple [PStr k; x] => Ok (k, x)
  | _ => Raise (TypeError "cannot convert dictionary update sequence element to dict")
  end.

Fixpoint dict_from_pairs (l : list pyval) : result (gmap string pyval) :=
  match l with
  | [] => Ok ∅
  | v :: rest =>
      match dict_item v with
      | Raise e => Raise e
      | Ok (k, x) =>
          match dict_from_pairs rest with
          | Raise e => Raise e
          | Ok d => Ok (match d !! k with Some _ => d | None => <[k := x]> d end)
          end
      end
  end.

(** [dict(v)] *)
Definition dict (v : pyval) : result (gmap string pyval) :=
  match v with
  | PDict d => Ok d
  | PList l | PTuple l => dict_from_pairs l
  | PStr _ =>
      Raise (ValueError "dictionary update sequence element #0 has length 1; 2 is required")
  | _ => Raise (TypeError ("'" ++ type_name v ++ "' object is not iterable"))
  end.

Fixpoint chars (s : string) : list pyval :=
  match s with
  | EmptyString => []
  | String a rest => PStr (String a EmptyString) :: chars rest
  end.

(** The elements [for r in v] runs over. *)
Definition iterate (v : pyval) : result (list pyval) :=
  match v with
  | PList l | PTuple l => Ok l
  | PStr s => Ok (chars s)
  | PDict d => Ok (map (fun kv => PStr (fst kv)) (map_to_list d))
  | _ => Raise (TypeError ("'" ++ type_name v ++ "' object is not iterable"))
  end.

(** [body.results] *)
Definition getattr_results (v : pyval) : result pyval :=
  match v with
  | PObj cls attrs _ =>
      match attrs !! "results" with
      | Some x => Ok x
      | None => Raise (AttributeError ("'" ++ cls ++ "' object has no attribute 'results'"))
      end
  | _ => Raise (AttributeError ("'" ++ type_name v ++ "' object has no attribute 'results'"))
  end.

(** [v.to_map()] *)
Definition call_to_map (v : pyval) : result pyval :=
  match v with
  | PObj _ _ (Some m) => Ok (PDict m)
  | _ => Raise (AttributeError ("'" ++ type_name v ++ "' object has no attribute 'to_map'"))
  end.

(** [msg.get(key, default)] *)
Definition method_get (msg : pyval) (key : string) (default : pyval) : result pyval :=
  match msg with
  | PDict d => Ok (match d !! key with Some x => x | None => default end)
  | _ => Raise (AttributeError ("'" ++ type_name msg ++ "' object has no attribute 'get'"))
  end.

(** [for x in l: out.append(f x)], stopping at the first exception. *)
Fixpoint for_each {A B} (f : A -> result B) (l : list A) : result (list B) :=
  match l with
  | [] => Ok []
  | x :: rest =>
      match f x with
      | Raise e => Raise e
      | Ok y => match for_each f rest with
                | Raise e => Raise e
                | Ok ys => Ok (y :: ys)
                end
      end
  end.

(** [{"status_code": response.status_code, "headers": response.headers}] *)
Definition status_and_headers (response : Response) : pyval :=
  PDict (<["status_code" := status_code response]>
         (<["headers" := headers response]> ∅)).

(** ** The synchronous facade *)

Module SLSMemoryClient.
Section Methods.

Variable sdk : SLSClient.t.

Definition call (m : SLSClient.method) : M Response :=
  invoke sdk (SLSClient.Call SLSClient.Blocking m).

Definition __init__ (config project memory_store : pyval) : result Client :=
  if negb (truthy project) then Raise (ValidationError "project is required")
  else if negb (truthy memory_store) then Raise (ValidationError "memory_store is required")
  else match SLSClient.connect sdk config with
       | inl text => Raise (SLSError text)
       | inr handle =>
           Ok {| _client := handle; _project := project; _memory_store := memory_store |}
       end.

Definition project : M pyval := let! c := self in ret (_project c).

Definition memory_store : M pyval := let! c := self in ret (_memory_store c).

Definition _prepare_messages (messages : pyval)
  : result (list AddMemoriesRequestMessages) :=
  let normalized :=
    match messages with
    | PStr _ => Ok [PDict (<["role" := PStr "user"]> (<["content" := messages]> ∅))]
    | PDict _ => Ok [messages]
    | PList l => Ok l
    | _ =>
        Raise (ValidationError
          ("messages must be str, dict, or list[dict], got " ++ type_name messages))
    end in
  match normalized with
  | Raise e => Raise e
  | Ok msgs =>
      for_each (fun msg =>
        match method_get msg "role" (PStr "user") with
        | Raise e => Raise e
        | Ok role =>
            match method_get msg "content" (PStr "") with
            | Raise e => Raise e
            | Ok content => Ok {| msg_role := role; msg_content := content |}
            end
        end) msgs
  end.

Definition _convert_memory_result (r : pyval) : result pyval :=
  if hasattr_to_map r then call_to_map r
  else if truthy r then
    match dict r with Raise e => Raise e | Ok d => Ok (PDict d) end
  else Ok (PDict ∅).

Definition _convert_results_list (results : pyval) : result pyval :=
  if truthy results then
    match iterate results with
    | Raise e => Raise e
    | Ok rs =>
        match for_each _convert_memory_result rs with
        | Raise e => Raise e
        | Ok out => Ok (PList out)
        end
    end
  else Ok (PList []).

Definition add (messages user_id agent_id app_id run_id metadata infer async_mode : pyval)
  : M pyval :=
  let! sls_messages := lift (_prepare_messages messages) in
  let request :=
    {| add_messages := sls_messages;
       add_user_id := user_id;
       add_agent_id := agent_id;
       add_app_id := app_id;
       add_run_id := run_id;
       add_metadata := metadata;
       add_infer := infer;
       add_custom_instructions := PNone; (* not passed: the default *)
       add_async_mode := async_mode |} in
  let! c := self in
  let! response := call (SLSClient.add_memories (_project c) (_memory_store c) request) in
  if truthy (body response) then lift (_convert_memory_result (body response))
  else ret (PDict (<["results" := PList []]> ∅)).

Definition get (memory_id : pyval) : M pyval :=
  if negb (truthy memory_id) then raise (ValidationError "memory_id is required")
  else
    let! c := self in
    let! response := call (SLSClient.get_memory (_project c) (_memory_store c) memory_id) in
    if truthy (body response) then lift (_convert_memory_result (body response))
    else ret (PDict ∅).

Definition get_all (user_id agent_id app_id run_id limit : pyval) : M pyval :=
  let request :=
    {| gm_user_id := user_id; gm_agent_id := agent_id; gm_app_id := app_id;
       gm_run_id := run_id; gm_limit := limit |} in
  let! c := self in
  let! response := call (SLSClient.get_memories (_project c) (_memory_store c) request) in
  let result := <["results" := PList []]> ∅ in
  if truthy (body response) then
    let! results := lift (getattr_results (body response)) in
    if truthy results then
      let! converted := lift (_convert_results_list results) in
      ret (PDict (<["results" := converted]> result))
    else ret (PDict result)
  else ret (PDict result).

Definition search (query user_id agent_id app_id run_id top_k rerank : pyval) : M pyval :=
  if negb (truthy query) then raise (ValidationError "query is required")
  else
    let request :=
      {| sm_query := query; sm_user_id := user_id; sm_agent_id := agent_id;
         sm_app_id := app_id; sm_run_id := run_id; sm_top_k := top_k;
         sm_rerank := rerank |} in
    let! c := self in
    let! response :=
      call (SLSClient.search_memories (_project c) (_memory_store c) request) in
    let result := <["results" := PList []]> ∅ in
    if truthy (body response) then
      let! results := lift (getattr_results (body response)) in
      if truthy results then
        let! converted := lift (_convert_results_list results) in
        ret (PDict (<["results" := converted]> result))
      else ret (PDict result)
    else ret (PDict result).

Definition update (memory_id text metadata : pyval) : M pyval :=
  if negb (truthy memory_id) then raise (ValidationError "memory_id is required")
  else if is_None text && is_None metadata then
    raise (ValidationError "Either text or metadata must be provided for update.")
  else
    let request := {| um_text := text; um_metadata := metadata |} in
    let! c := self in
    let! response :=
      call (SLSClient.update_memory (_project c) (_memory_store c) memory_id request) in
    ret (status_and_headers response).

Definition delete (memory_id : pyval) : M pyval :=
  if negb (truthy memory_id) then raise (ValidationError "memory_id is required")
  else
    let! c := self in
    let! response :=
      call (SLSClient.delete_memory (_project c) (_memory_store c) memory_id) in
    ret (status_and_headers response).

Definition delete_all (user_id agent_id app_id run_id : pyval) : M pyval :=
  let request :=
    {| dm_user_id := user_id; dm_agent_id := agent_id; dm_app_id := app_id;
       dm_run_id := run_id |} in
  let! c := self in
  let! response :=
    call (SLSClient.delete_memories (_project c) (_memory_store c) request) in
  ret (status_and_headers response).

Definition history (memory_id : pyval) : M pyval :=
  if negb (truthy memory_id) then raise (ValidationError "memory_id is required")
  else
    let! c := self in
    let! response :=
      call (SLSClient.get_memory_history (_project c) (_memory_store c) memory_id) in
    if truthy (body response) then lift (_convert_results_list (body response))
    else ret (PList []).

Definition create_memory_store
  (description custom_instructions enable_graph strategy short_term_ttl : pyval)
  : M pyval :=
  let! c := self in
  let store_name := _memory_store c in
  let request :=
    {| cms_name := store_name;
       cms_description := description;
       cms_custom_instructions := custom_instructions;
       cms_enable_graph := enable_graph;
       cms_strategy := strategy;
       cms_short_term_ttl := short_term_ttl |} in
  let! response :=
    try_except
      (call (SLSClient.create_memory_store (_project c) request))
      (fun e =>
         if negb (contains "ProjectNotExist" (str_exc e)) then raise e
         else
           call (SLSClient.create_project
                   {| cp_project_name := _project c;
                      cp_description := PStr "Auto-created by SLS Memory SDK" |}) ;;
           call (SLSClient.create_memory_store (_project c) request)) in
  ret (status_and_headers response).

Definition describe_memory_store : M pyval :=
  let! c := self in
  let! response := call (SLSClient.get_memory_store (_project c) (_memory_store c)) in
  if truthy (body response) then lift (_convert_memory_result (body response))
  else ret (PDict ∅).

Definition update_memory_store
  (description custom_instructions enable_graph strategy short_term_ttl : pyval)
  : M pyval :=
  let request :=
    {| ums_description := description;
       ums_custom_instructions := custom_instructions;
       ums_enable_graph := enable_graph;
       ums_strategy := strategy;
       ums_short_term_ttl := short_term_ttl |} in
  let! c := self in
  let! response :=
    call (SLSClient.update_memory_store (_project c) (_memory_store c) request) in
  ret (status_and_headers response).

Definition delete_memory_store : M pyval :=
  let! c := self in
  let! response := call (SLSClient.delete_memory_store (_project c) (_memory_store c)) in
  ret (status_and_headers response).

End Methods.
End SLSMemoryClient.

(** ** The suspend-point facade

    Every method is an [async def]; each SDK call is the awaited [_async]
    variant. *)

Module AsyncSLSMemoryClient.
Section Methods.

Variable sdk : SLSClient.t.

Definition call (m : SLSClient.method) : M Response :=
  invoke sdk (SLSClient.Call SLSClient.Suspending m).

Definition __init__ (config project memory_store : pyval) : result Client :=
  if negb (truthy project) then Raise (ValidationError "project is required")
  else if negb (truthy memory_store) then Raise (ValidationError "memory_store is required")
  else match SLSClient.connect sdk config with
       | inl text => Raise (SLSError text)
       | inr handle =>
           Ok {| _client := handle; _project := project; _memory_store := memory_store |}
       end.

Definition __aenter__ : M Client := self.

Definition __aexit__ (exc_type exc_val exc_tb : pyval) : M pyval := ret PNone.

Definition project : M pyval := let! c := self in ret (_project c).

Definition memory_store : M pyval := let! c := self in ret (_memory_store c).

Definition _prepare_messages (messages : pyval)
  : result (list AddMemoriesRequestMessages) :=
  let normalized :=
    match messages with
    | PStr _ => Ok [PDict (<["role" := PStr "user"]> (<["content" := messages]> ∅))]
    | PDict _ => Ok [messages]
    | PList l => Ok l
    | _ =>
        Raise (ValidationError
          ("messages must be str, dict, or list[dict], got " ++ type_name messages))
    end in
  match normalized with
  | Raise e => Raise e
  | Ok msgs =>
      for_each (fun msg =>
        match method_get msg "role" (PStr "user") with
        | Raise e => Raise e
        | Ok role =>
            match method_get msg "content" (PStr "") with
            | Raise e => Raise e
            | Ok content => Ok {| msg_role := role; msg_content := content |}
            end
        end) msgs
  end.

Definition _convert_memory_result (r : pyval) : result pyval :=
  if hasattr_to_map r then call_to_map r
  else if truthy r then
    match dict r with Raise e => Raise e | Ok d => Ok (PDict d) end
  else Ok (PDict ∅).

Definition _convert_results_list (results : pyval) : result pyval :=
  if truthy results then
    match iterate results with
    | Raise e => Raise e
    | Ok rs =>
        match for_each _convert_memory_result rs with
        | Raise e => Raise e
        | Ok out => Ok (PList out)
        end
    end
  else Ok (PList []).

Definition add
  (messages user_id agent_id app_id run_id metadata infer custom_instructions
     async_mode : pyval)
  : M pyval :=
  let! sls_messages := lift (_prepare_messages messages) in
  let request :=
    {| add_messages := sls_messages;
       add_user_id := user_id;
       add_agent_id := agent_id;
       add_app_id := app_id;
       add_run_id := run_id;
       add_metadata := metadata;
       add_infer := infer;
       add_custom_instructions := custom_instructions;
       add_async_mode := async_mode |} in
  let! c := self in
  let! response := call (SLSClient.add_memories (_project c) (_memory_store c) request) in
  if truthy (body response) then lift (_convert_memory_result (body response))
  else ret (PDict (<["results" := PList []]> ∅)).

Definition get (memory_id : pyval) : M pyval :=
  if negb (truthy memory_id) then raise (ValidationError "memory_id is required")
  else
    let! c := self in
    let! response := call (SLSClient.get_memory (_project c) (_memory_store c) memory_id) in
    if truthy (body response) then lift (_convert_memory_result (body response))
    else ret (PDict ∅).

Definition get_all (user_id agent_id app_id run_id limit : pyval) : M pyval :=
  let request :=
    {| gm_user_id := user_id; gm_agent_id := agent_id; gm_app_id := app_id;
       gm_run_id := run_id; gm_limit := limit |} in
  let! c := self in
  let! response := call (SLSClient.get_memories (_project c) (_memory_store c) request) in
  let result := <["results" := PList []]> ∅ in
  if truthy (body response) then
    let! results := lift (getattr_results (body response)) in
    if truthy results then
      let! converted := lift (_convert_results_list results) in
      ret (PDict (<["results" := converted]> result))
    else ret (PDict result)
  else ret (PDict result).

Definition search (query user_id agent_id app_id run_id top_k rerank : pyval) : M pyval :=
  if negb (truthy query) then raise (ValidationError "query is required")
  else
    let request :=
      {| sm_query := query; sm_user_id := user_id; sm_agent_id := agent_id;
         sm_app_id := app_id; sm_run_id := run_id; sm_top_k := top_k;
         sm_rerank := rerank |} in
    let! c := self in
    let! response :=
      call (SLSClient.search_memories (_project c) (_memory_store c) request) in
    let result := <["results" := PList []]> ∅ in
    if truthy (body response) then
      let! results := lift (getattr_results (body response)) in
      if truthy results then
        let! converted := lift (_convert_results_list results) in
        ret (PDict (<["results" := converted]> result))
      else ret (PDict result)
    else ret (PDict result).

Definition update (memory_id text metadata : pyval) : M pyval :=
  if negb (truthy memory_id) then raise (ValidationError "memory_id is required")
  else if is_None text && is_None metadata then
    raise (ValidationError "Either text or metadata must be provided for update.")
  else
    let request := {| um_text := text; um_metadata := metadata |} in
    let! c := self in
    let! response :=
      call (SLSClient.update_memory (_project c) (_memory_store c) memory_id request) in
    ret (status_and_headers response).

Definition delete (memory_id : pyval) : M pyval :=
  if negb (truthy memory_id) then raise (ValidationError "memory_id is required")
  else
    let! c := self in
    let! response :=
      call (SLSClient.delete_memory (_project c) (_memory_store c) memory_id) in
    ret (status_and_headers response).

Definition delete_all (user_id agent_id app_id run_id : pyval) : M pyval :=
  let request :=
    {| dm_user_id := user_id; dm_agent_id := agent_id; dm_app_id := app_id;
       dm_run_id := run_id |} in
  let! c := self in
  let! response :=
    call (SLSClient.delete_memories (_project c) (_memory_store c) request) in
  ret (status_and_headers response).

Definition history (memory_id : pyval) : M pyval :=
  if negb (truthy memory_id) then raise (ValidationError "memory_id is required")
  else
    let! c := self in
    let! response :=
      call (SLSClient.get_memory_history (_project c) (_memory_store c) memory_id) in
    if truthy (body response) then lift (_convert_results_list (body response))
    else ret (PList []).

Definition create_memory_store
  (description custom_instructions enable_graph strategy short_term_ttl : pyval)
  : M pyval :=
  let! c := self in
  let store_name := _memory_store c in
  let request :=
    {| cms_name := store_name;
       cms_description := description;
       cms_custom_instructions := custom_instructions;
       cms_enable_graph := enable_graph;
       cms_strategy := strategy;
       cms_short_term_ttl := short_term_ttl |} in
  let! response :=
    try_except
      (call (SLSClient.create_memory_store (_project c) request))
      (fun e =>
         if negb (contains "ProjectNotExist" (str_exc e)) then raise e
         else
           call (SLSClient.create_project
                   {| cp_project_name := _project c;
                      cp_description := PStr "Auto-created by SLS Memory SDK" |}) ;;
           call (SLSClient.create_memory_store (_project c) request)) in
  ret (status_and_headers response).

Definition describe_memory_store : M pyval :=
  let! c := self in
  let! response := call (SLSClient.get_memory_store (_project c) (_memory_store c)) in
  if truthy (body response) then lift (_convert_memory_result (body response))
  else ret (PDict ∅).

Definition update_memory_store
  (description custom_instructions enable_graph strategy short_term_ttl : pyval)
  : M pyval :=
  let request :=
    {| ums_description := description;
       ums_custom_instructions := custom_instructions;
       ums_enable_graph := enable_graph;
       ums_strategy := strategy;
       ums_short_term_ttl := short_term_ttl |} in
  let! c := self in
  let! response :=
    call (SLSClient.update_memory_store (_project c) (_memory_store c) request) in
  ret (status_and_headers response).

Definition delete_memory_store : M pyval :=
  let! c := self in
  let! response := call (SLSClient.delete_memory_store (_project c) (_memory_store c)) in
  ret (status_and_headers response).

End Methods.
End AsyncSLSMemoryClient.

(** ** The operation surface

    One constructor per public method, with the arguments both facades
    take.  [AsyncSLSMemoryClient.add] has one more keyword parameter,
    [custom_instructions]; a call that [SLSMemoryClient.add] accepts too
    does not pass it, and it keeps its default [None]. *)

Inductive operation : Type :=
| op_add (messages user_id agent_id app_id run_id metadata infer async_mode : pyval)
| op_get (memory_id : pyval)
| op_get_all (user_id agent_id app_id run_id limit : pyval)
| op_search (query user_id agent_id app_id run_id top_k rerank : pyval)
| op_update (memory_id text metadata : pyval)
| op_delete (memory_id : pyval)
| op_delete_all (user_id agent_id app_id run_id : pyval)
| op_history (memory_id : pyval)
| op_create_memory_store
    (description custom_instructions enable_graph strategy short_term_ttl : pyval)
| op_describe_memory_store
| op_update_memory_store
    (description custom_instructions enable_graph strategy short_term_ttl : pyval)
| op_delete_memory_store.

Definition sync_perform (sdk : SLSClient.t) (op : operation) : M pyval :=
  match op with
  | op_add m u a p r md i am => SLSMemoryClient.add sdk m u a p r md i am
  | op_get mid => SLSMemoryClient.get sdk mid
  | op_get_all u a p r l => SLSMemoryClient.get_all sdk u a p r l
  | op_search q u a p r k rr => SLSMemoryClient.search sdk q u a p r k rr
  | op_update mid t md => SLSMemoryClient.update sdk mid t md
  | op_delete mid => SLSMemoryClient.delete sdk mid
  | op_delete_all u a p r => SLSMemoryClient.delete_all sdk u a p r
  | op_history mid => SLSMemoryClient.history sdk mid
  | op_create_memory_store d ci g s ttl =>
      SLSMemoryClient.create_memory_store sdk d ci g s ttl
  | op_describe_memory_store => SLSMemoryClient.describe_memory_store sdk
  | op_update_memory_store d ci g s ttl =>
      SLSMemoryClient.update_memory_store sdk d ci g s ttl
  | op_delete_memory_store => SLSMemoryClient.delete_memory_store sdk
  end.

Definition async_perform (sdk : SLSClient.t) (op : operation) : M pyval :=
  match op with
  | op_add m u a p r md i am => AsyncSLSMemoryClient.add sdk m u a p r md i PNone am
  | op_get mid => AsyncSLSMemoryClient.get sdk mid
  | op_get_all u a p r l => AsyncSLSMemoryClient.get_all sdk u a p r l
  | op_search q u a p r k rr => AsyncSLSMemoryClient.search sdk q u a p r k rr
  | op_update mid t md => AsyncSLSMemoryClient.update sdk mid t md
  | op_delete mid => AsyncSLSMemoryClient.delete sdk mid
  | op_delete_all u a p r => AsyncSLSMemoryClient.delete_all sdk u a p r
  | op_history mid => AsyncSLSMemoryClient.history sdk mid
  | op_create_memory_store d ci g s ttl =>
      AsyncSLSMemoryClient.create_memory_store sdk d ci g s ttl
  | op_describe_memory_store => AsyncSLSMemoryClient.describe_memory_store sdk
  | op_update_memory_store d ci g s ttl =>
      AsyncSLSMemoryClient.update_memory_store sdk d ci g s ttl
  | op_delete_memory_store => AsyncSLSMemoryClient.delete_memory_store sdk
  end.

(** A client session: operations one after another on the same object,
    whatever each of them returns or raises. *)
Fixpoint session (perform : operation -> M pyval) (ops : list operation) (w : World)
  : World :=
  match ops with
  | [] => w
  | op :: rest => session perform rest (snd (perform op w))
  end.

(** ** Worlds and logs *)

(** The world after the calls [cs] have been made. *)
Definition extend (w : World) (cs : list SLSClient.call) : World :=
  {| this := this w; log := log w ++ cs |}.

(** The [_async] variant of a call. *)
Definition as_async (c : SLSClient.call) : SLSClient.call :=
  SLSClient.Call SLSClient.Suspending (SLSClient.what c).

(** The same world, seen from the suspend-point facade. *)
Definition asyncify (w : World) : World :=
  {| this := this w; log := map as_async (log w) |}.

(** ** Shapes of the messages argument *)

Definition is_string (v : pyval) : bool :=
  match v with PStr _ => true | _ => false end.

Definition is_mapping (v : pyval) : bool :=
  match v with PDict _ => true | _ => false end.

(** The shapes the top-level test of [_prepare_messages] lets through. *)
Definition str_dict_or_list (v : pyval) : bool :=
  match v with PStr _ | PDict _ | PList _ => true | _ => false end.

(** A list or tuple all of whose elements are mappings. *)
Definition sequence_of_mappings (v : pyval) : bool :=
  match v with
  | PList l | PTuple l => forallb is_mapping l
  | _ => false
  end.

(** ** The specification's words, for comparison with the code *)

(** The Message a mapping stands for: role defaults to "user", content to
    the empty string. *)
Definition message_of (d : gmap string pyval) : AddMemoriesRequestMessages :=
  {| msg_role := match d !! "role" with Some r => r | None => PStr "user" end;
     msg_content := match d !! "content" with Some c => c | None => PStr "" end |}.

(** [{"results": []}] *)
Definition empty_results : pyval := PDict (<["results" := PList []]> ∅).

(** What the specification asks of a run of create_memory_store that sends
    [request] through the [how] variants of the SDK methods. *)
Definition provisioning_contract
  (sdk : SLSClient.t) (how : SLSClient.sched) (run : M pyval)
  (request : CreateMemoryStoreRequest) (w : World) : Prop :=
  let create :=
    SLSClient.Call how (SLSClient.create_memory_store (_project (this w)) request) in
  let provision :=
    SLSClient.Call how
      (SLSClient.create_project
         {| cp_project_name := _project (this w);
            cp_description := PStr "Auto-created by SLS Memory SDK" |}) in
  (* the first attempt succeeds: no project is created *)
  (forall r,
     SLSClient.respond sdk (log w) create = inr r ->
     run w = (Ok (status_and_headers r), extend w [create]))
  (* it fails without the marker: the error surfaces at once *)
  /\ (forall text,
        SLSClient.respond sdk (log w) create = inl text ->
        contains "ProjectNotExist" text = false ->
        run w = (Raise (SLSError text), extend w [create]))
  (* it fails with the marker: one create_project, then one retry *)
  /\ (forall text,
        SLSClient.respond sdk (log w) create = inl text ->
        contains "ProjectNotExist" text = true ->
        (forall text2,
           SLSClient.respond sdk (log w ++ [create]) provision = inl text2 ->
           run w = (Raise (SLSError text2), extend w [create; provision]))
        /\ (forall r2,
              SLSClient.respond sdk (log w ++ [create]) provision = inr r2 ->
              (forall text3,
                 SLSClient.respond sdk (log w ++ [create; provision]) create = inl text3 ->
                 run w = (Raise (SLSError text3), extend w [create; provision; create]))
              /\ (forall r3,
                    SLSClient.respond sdk (log w ++ [create; provision]) create = inr r3 ->
                    run w = (Ok (status_and_headers r3),
                             extend w [create; provision; create])))).

(** What the specification asks of the operations of one facade,
    [perform] through the [how] variants of the SDK methods, when the
    response carries no body, or a body whose results are absent. *)
Definition absent_body_contract
  (sdk : SLSClient.t) (how : SLSClient.sched) (perform : operation -> M pyval)
  (prepare : pyval -> result (list AddMemoriesRequestMessages)) (w : World) : Prop :=
  let project := _project (this w) in
  let store := _memory_store (this w) in
  let answered (m : SLSClient.method) (r : Response) : Prop :=
    SLSClient.respond sdk (log w) (SLSClient.Call how m) = inr r in
  let results_absent (b : pyval) : Prop :=
    b = PNone
    \/ exists cls attrs to_map,
         b = PObj cls attrs to_map /\ attrs !! "results" = Some PNone in
  (forall memory_id r,
     truthy memory_id = true ->
     answered (SLSClient.get_memory project store memory_id) r ->
     body r = PNone ->
     fst (perform (op_get memory_id) w) = Ok (PDict ∅))
  /\ (forall r,
        answered (SLSClient.get_memory_store project store) r ->
        body r = PNone ->
        fst (perform op_describe_memory_store w) = Ok (PDict ∅))
  /\ (forall memory_id r,
        truthy memory_id = true ->
        answered (SLSClient.get_memory_history project store memory_id) r ->
        body r = PNone ->
        fst (perform (op_history memory_id) w) = Ok (PList []))
  /\ (forall messages user_id agent_id app_id run_id metadata infer async_mode msgs r,
        prepare messages = Ok msgs ->
        answered
          (SLSClient.add_memories project store
             {| add_messages := msgs; add_user_id := user_id; add_agent_id := agent_id;
                add_app_id := app_id; add_run_id := run_id; add_metadata := metadata;
                add_infer := infer; add_custom_instructions := PNone;
                add_async_mode := async_mode |}) r ->
        body r = PNone ->
        fst (perform
               (op_add messages user_id agent_id app_id run_id metadata infer async_mode) w)
        = Ok empty_results)
  /\ (forall user_id agent_id app_id run_id limit r,
        answered
          (SLSClient.get_memories project store
             {| gm_user_id := user_id; gm_agent_id := agent_id; gm_app_id := app_id;
                gm_run_id := run_id; gm_limit := limit |}) r ->
        results_absent (body r) ->
        fst (perform (op_get_all user_id agent_id app_id run_id limit) w)
        = Ok empty_results)
  /\ (forall query user_id agent_id app_id run_id top_k rerank r,
        truthy query = true ->
        answered
          (SLSClient.search_memories project store
             {| sm_query := query; sm_user_id := user_id; sm_agent_id := agent_id;
                sm_app_id := app_id; sm_run_id := run_id; sm_top_k := top_k;
                sm_rerank := rerank |}) r ->
        results_absent (body r) ->
        fst (perform (op_search query user_id agent_id app_id run_id top_k rerank) w)
        = Ok empty_results).

(** Whether an operation is refused by local validation, read off its
    arguments alone. *)
Definition locally_refused (op : operation) : bool :=
  match op with
  | op_add messages _ _ _ _ _ _ _ => negb (str_dict_or_list messages)
  | op_get memory_id | op_delete memory_id | op_history memory_id =>
      negb (truthy memory_id)
  | op_search query _ _ _ _ _ _ => negb (truthy query)
  | op_update memory_id text metadata =>
      negb (truthy memory_id) || (is_None text && is_None metadata)
  | _ => false
  end.

(** ** Properties of a method *)

(** [m] leaves the client object as it found it. *)
Definition keeps_this {A} (m : M A) : Prop :=
  forall w, this (snd (m w)) = this w.

(** [m] never raises a validation error. *)
Definition never_refuses {A} (m : M A) : Prop :=
  forall w, raises_ValidationError (fst (m w)) = false.

(** [ma], run on the suspend-point view of a world, does what [ms] does on
    the world itself. *)
Definition mirrors {A} (ma ms : M A) : Prop :=
  forall w, ma (asyncify w) = (fst (ms w), asyncify (snd (ms w))).

(** ** Sample services and calls

    [steady_sdk] answers every call with status 200 and no body.
    [fresh_account_sdk] knows no project yet: creating a store fails with
    the service's ProjectNotExist error until a project has been created.
    [results_less_sdk] answers with a body whose results are absent. *)

Definition plain_response : Response :=
  {| status_code := PInt 200; headers := PDict ∅; body := PNone |}.

Definition steady_sdk : SLSClient.t :=
  {| SLSClient.connect := fun _ => inr (PObj "Client" ∅ None);
     SLSClient.respond := fun _ _ => inr plain_response |}.

Definition fresh_account_sdk : SLSClient.t :=
  {| SLSClient.connect := fun _ => inr (PObj "Client" ∅ None);
     SLSClient.respond := fun before c =>
       if SLSClient.is_create_memory_store c
          && negb (existsb SLSClient.is_create_project before)
       then inl "ProjectNotExist: The Project does not exist : my-project"
       else inr plain_response |}.

Definition results_less_response : Response :=
  {| status_code := PInt 200;
     headers := PDict ∅;
     body := PObj "SearchMemoriesResponseBody" {["results" := PNone]} (Some ∅) |}.

Definition results_less_sdk : SLSClient.t :=
  {| SLSClient.connect := fun _ => inr (PObj "Client" ∅ None);
     SLSClient.respond := fun _ _ => inr results_less_response |}.

Definition sample_world : World :=
  {| this := {| _client := PObj "Client" ∅ None;
                _project := PStr "my-project";
                _memory_store := PStr "my-store" |};
     log := [] |}.

(** [add("I love playing tennis", user_id="user123")] *)
Definition sample_add : operation :=
  op_add (PStr "I love playing tennis") (PStr "user123") PNone PNone PNone PNone
    (PBool true) (PBool true).

(** The two calls of [create_memory_store()] with its defaults on
    [sample_world]. *)
Definition sample_create : SLSClient.call :=
  SLSClient.Call SLSClient.Blocking
    (SLSClient.create_memory_store (PStr "my-project")
       {| cms_name := PStr "my-store"; cms_description := PNone;
          cms_custom_instructions := PNone; cms_enable_graph := PBool false;
          cms_strategy := PStr "default"; cms_short_term_ttl := PInt 7 |}).

Definition sample_provision : SLSClient.call :=
  SLSClient.Call SLSClient.Blocking
    (SLSClient.create_project
       {| cp_project_name := PStr "my-project";
          cp_description := PStr "Auto-created by SLS Memory SDK" |}).

(** ** Further properties of a method *)

(** [m] makes at most [n] SDK calls, and only appends them to the log. *)
Definition spends {A} (n : nat) (m : M A) : Prop :=
  forall w, exists cs, snd (m w) = extend w cs /\ length cs <= n.

(** The SDK calls an operation may make: create, provision and retry for
    create_memory_store, one call for every other operation. *)
Definition call_budget (op : operation) : nat :=
  match op with
  | op_create_memory_store _ _ _ _ _ => 3
  | _ => 1
  end.

Definition is_op_create_memory_store (op : operation) : bool :=
  match op with
  | op_create_memory_store _ _ _ _ _ => true
  | _ => false
  end.

(** A service that refuses every call. *)
Definition failing_sdk : SLSClient.t :=
  {| SLSClient.connect := fun _ => inr (PObj "Client" ∅ None);
     SLSClient.respond := fun _ _ => inl "Unauthorized: signature mismatch" |}.

(** What an operation that reads no body returns: the status and headers of
    the response, or the error of the service. *)
Definition status_outcome (answer : string + Response) : result pyval :=
  match answer with
  | inl text => Raise (SLSError text)
  | inr r => Ok (status_and_headers r)
  end.

(** What a value that is plain data for the flattener stands for: the
    mapping [to_map] gives for an SDK model object, a mapping itself. *)
Definition flat_of (v : pyval) : option (gmap string pyval) :=
  match v with
  | PObj _ _ (Some m) => Some m
  | PDict d => Some d
  | _ => None
  end.

(** What the operations of one facade return for a response that carries
    a body of model objects or mappings. *)
Definition present_body_contract
  (sdk : SLSClient.t) (how : SLSClient.sched) (perform : operation -> M pyval)
  (prepare : pyval -> result (list AddMemoriesRequestMessages)) (w : World) : Prop :=
  let project := _project (this w) in
  let store := _memory_store (this w) in
  let answered (m : SLSClient.method) (r : Response) : Prop :=
    SLSClient.respond sdk (log w) (SLSClient.Call how m) = inr r in
  let holds_results (b : pyval) (items : list pyval) : Prop :=
    exists cls attrs to_map,
      b = PObj cls attrs to_map /\ attrs !! "results" = Some (PList items) in
  (forall memory_id r m,
     truthy memory_id = true ->
     answered (SLSClient.get_memory project store memory_id) r ->
     flat_of (body r) = Some m ->
     fst (perform (op_get memory_id) w) = Ok (PDict m))
  /\ (forall r m,
        answered (SLSClient.get_memory_store project store) r ->
        flat_of (body r) = Some m ->
        fst (perform op_describe_memory_store w) = Ok (PDict m))
  /\ (forall messages user_id agent_id app_id run_id metadata infer async_mode msgs r m,
        prepare messages = Ok msgs ->
        answered
          (SLSClient.add_memories project store
             {| add_messages := msgs; add_user_id := user_id; add_agent_id := agent_id;
                add_app_id := app_id; add_run_id := run_id; add_metadata := metadata;
                add_infer := infer; add_custom_instructions := PNone;
                add_async_mode := async_mode |}) r ->
        truthy (body r) = true ->
        flat_of (body r) = Some m ->
        fst (perform
               (op_add messages user_id agent_id app_id run_id metadata infer async_mode) w)
        = Ok (PDict m))
  /\ (forall memory_id r items ms,
        truthy memory_id = true ->
        answered (SLSClient.get_memory_history project store memory_id) r ->
        body r = PList items ->
        mapM flat_of items = Some ms ->
        fst (perform (op_history memory_id) w) = Ok (PList (PDict <$> ms)))
  /\ (forall user_id agent_id app_id run_id limit r items ms,
        answered
          (SLSClient.get_memories project store
             {| gm_user_id := user_id; gm_agent_id := agent_id; gm_app_id := app_id;
                gm_run_id := run_id; gm_limit := limit |}) r ->
        holds_results (body r) items ->
        mapM flat_of items = Some ms ->
        fst (perform (op_get_all user_id agent_id app_id run_id limit) w)
        = Ok (PDict (<["results" := PList (PDict <$> ms)]> ∅)))
  /\ (forall query user_id agent_id app_id run_id top_k rerank r items ms,
        truthy query = true ->
        answered
          (SLSClient.search_memories project store
             {| sm_query := query; sm_user_id := user_id; sm_agent_id := agent_id;
                sm_app_id := app_id; sm_run_id := run_id; sm_top_k := top_k;
                sm_rerank := rerank |}) r ->
        holds_results (body r) items ->
        mapM flat_of items = Some ms ->
        fst (perform (op_search query user_id agent_id app_id run_id top_k rerank) w)
        = Ok (PDict (<["results" := PList (PDict <$> ms)]> ∅))).

(** A memory as the service sends it, and a service that answers every
    call with a body holding two of them. *)
Definition tennis_memory : pyval :=
  PObj "Memory" {["memory" := PStr "loves tennis"]}
    (Some {["id" := PStr "m1"; "memory" := PStr "loves tennis"]}).

Definition hangzhou_memory : pyval :=
  PDict {["id" := PStr "m2"; "memory" := PStr "lives in Hangzhou"]}.

Definition two_memories_response : Response :=
  {| status_code := PInt 200;
     headers := PDict ∅;
     body := PObj "GetMemoriesResponseBody"
               {["results" := PList [tennis_memory; hangzhou_memory]]}
               (Some {["results" := PList []]}) |}.

Definition two_memories_sdk : SLSClient.t :=
  {| SLSClient.connect := fun _ => inr (PObj "Client" ∅ None);
     SLSClient.respond := fun _ _ => inr two_memories_response |}.

(** The shape of what an operation returns: a list of mappings for
    history, a mapping with the one key results holding a list of mappings
    for get_all and search, a mapping with the two keys status_code and
    headers for the operations that read no body, a mapping for the rest. *)
Definition well_shaped (op : operation) (v : pyval) : Prop :=
  match op with
  | op_history _ => exists ds : list (gmap string pyval), v = PList (PDict <$> ds)
  | op_get_all _ _ _ _ _ | op_search _ _ _ _ _ _ _ =>
      exists ds : list (gmap string pyval),
        v = PDict (<["results" := PList (PDict <$> ds)]> ∅)
  | op_add _ _ _ _ _ _ _ _ | op_get _ | op_describe_memory_store =>
      exists d : gmap string pyval, v = PDict d
  | _ =>
      exists code hdrs : pyval,
        v = PDict (<["status_code" := code]> (<["headers" := hdrs]> ∅))
  end.

(** The SDK method an operation is served by; create_memory_store is also
    served by create_project. *)
Definition serves (op : operation) (m : SLSClient.method) : bool :=
  match op, m with
  | op_add _ _ _ _ _ _ _ _, SLSClient.add_memories _ _ _
  | op_get _, SLSClient.get_memory _ _ _
  | op_get_all _ _ _ _ _, SLSClient.get_memories _ _ _
  | op_search _ _ _ _ _ _ _, SLSClient.search_memories _ _ _
  | op_update _ _ _, SLSClient.update_memory _ _ _ _
  | op_delete _, SLSClient.delete_memory _ _ _
  | op_delete_all _ _ _ _, SLSClient.delete_memories _ _ _
  | op_history _, SLSClient.get_memory_history _ _ _
  | op_create_memory_store _ _ _ _ _, SLSClient.create_memory_store _ _
  | op_create_memory_store _ _ _ _ _, SLSClient.create_project _
  | op_describe_memory_store, SLSClient.get_memory_store _ _
  | op_update_memory_store _ _ _ _ _, SLSClient.update_memory_store _ _ _
  | op_delete_memory_store, SLSClient.delete_memory_store _ _ => true
  | _, _ => false
  end.

(** The call [m] names the project and the memory store of the client [c],
    and no other. *)
Definition addressed_to (c : Client) (m : SLSClient.method) : Prop :=
  match m with
  | SLSClient.add_memories p s _
  | SLSClient.get_memory p s _
  | SLSClient.get_memories p s _
  | SLSClient.search_memories p s _
  | SLSClient.update_memory p s _ _
  | SLSClient.delete_memory p s _
  | SLSClient.delete_memories p s _
  | SLSClient.get_memory_history p s _
  | SLSClient.get_memory_store p s
  | SLSClient.update_memory_store p s _
  | SLSClient.delete_memory_store p s => p = _project c /\ s = _memory_store c
  | SLSClient.create_memory_store p request =>
      p = _project c /\ cms_name request = _memory_store c
  | SLSClient.create_project request => cp_project_name request = _project c
  end.

(** [m], run on the client [c] through the [how] variants, only appends
    calls to methods that [allowed] lets through, each on the names [c] is
    bound to. *)
Definition confined {A} (how : SLSClient.sched) (allowed : SLSClient.method -> bool)
  (c : Client) (m : M A) : Prop :=
  forall w, this w = c ->
    exists cs,
      snd (m w) = extend w cs
      /\ Forall (fun made => made = SLSClient.Call how (SLSClient.what made)
                             /\ allowed (SLSClient.what made) = true
                             /\ addressed_to c (SLSClient.what made)) cs.

(** The message of the validation error an operation is refused with, read
    off its arguments in the order the checks are written: the memory_id
    before the text and metadata of an update. *)
Definition refusal_message (op : operation) : option string :=
  match op with
  | op_add messages _ _ _ _ _ _ _ =>
      if str_dict_or_list messages then None
      else Some ("messages must be str, dict, or list[dict], got " ++ type_name messages)
  | op_get memory_id | op_delete memory_id | op_history memory_id =>
      if truthy memory_id then None else Some "memory_id is required"
  | op_search query _ _ _ _ _ _ =>
      if truthy query then None else Some "query is required"
  | op_update memory_id text metadata =>
      if negb (truthy memory_id) then Some "memory_id is required"
      else if is_None text && is_None metadata
           then Some "Either text or metadata must be provided for update."
           else None
  | _ => None
  end.

(** ** The example script, [example.py]

    [main] builds a configuration and a client from the environment, then
    creates the store, adds a memory, searches and lists, printing each
    result.  What it leaves behind is what it printed, the exception that
    stopped it, if any, and the SDK calls it made.  The two [time.sleep]
    calls only let time pass.  String literals are the UTF-8 bytes of the
    source's. *)

Module example.

(** [os.getenv(name)] *)
Definition getenv (environ : string -> option string) (name : string) : pyval :=
  match environ name with
  | Some value => PStr value
  | None => PNone
  end.

(** [Config(access_key_id=..., access_key_secret=..., endpoint=...)], the
    credential bundle handed to the SDK. *)
Definition Config (access_key_id access_key_secret endpoint : pyval) : pyval :=
  PObj "Config"
    {["access_key_id" := access_key_id;
      "access_key_secret" := access_key_secret;
      "endpoint" := endpoint]}
    None.

Record Transcript := {
  printed : list pyval;
  raised : option pyexc;
  calls : list SLSClient.call;
}.

(** [result = step; print(result)], one statement after the other, until
    one raises. *)
Fixpoint print_each (steps : list (M pyval)) (w : World)
  : list pyval * option pyexc * World :=
  match steps with
  | [] => ([], None, w)
  | step :: rest =>
      match step w with
      | (Raise e, w') => ([], Some e, w')
      | (Ok result, w') =>
          let '(out, stopped, w'') := print_each rest w' in
          (result :: out, stopped, w'')
      end
  end.

Definition main (sdk : SLSClient.t) (environ : string -> option string) : Transcript :=
  let config :=
    Config (getenv environ "ALIYUN_LOG_ACCESS_KEY_ID")
      (getenv environ "ALIYUN_LOG_ACCESS_KEY_SECRET")
      (getenv environ "ALIYUN_LOG_ENDPOINT") in
  match
    SLSMemoryClient.__init__ sdk config
      (getenv environ "ALIYUN_LOG_PROJECT")
      (getenv environ "ALIYUN_LOG_MEMORY_STORE")
  with
  | Raise e => {| printed := []; raised := Some e; calls := [] |}
  | Ok client =>
      let '(out, stopped, w) :=
        print_each
          [SLSMemoryClient.create_memory_store sdk PNone PNone (PBool false)
             (PStr "default") (PInt 7);
           SLSMemoryClient.add sdk
             (PStr "我住在杭州，喜欢杭州的风景，经常会去西湖玩")
             (PStr "user123") PNone PNone PNone PNone (PBool true) (PBool true);
           SLSMemoryClient.search sdk (PStr "我住在哪里？") (PStr "user123")
             PNone PNone PNone PNone (PBool false);
           SLSMemoryClient.get_all sdk (PStr "user123") PNone PNone PNone PNone]
          {| this := client; log := [] |} in
      {| printed := out; raised := stopped; calls := log w |}
  end.

End example.

(** The SDK methods the example script has a use for. *)
Definition example_call (c : SLSClient.call) : bool :=
  match c with
  | SLSClient.Call SLSClient.Blocking (SLSClient.create_memory_store _ _)
  | SLSClient.Call SLSClient.Blocking (SLSClient.create_project _)
  | SLSClient.Call SLSClient.Blocking (SLSClient.add_memories _ _ _)
  | SLSClient.Call SLSClient.Blocking (SLSClient.search_memories _ _ _)
  | SLSClient.Call SLSClient.Blocking (SLSClient.get_memories _ _ _) => true
  | _ => false
  end.

(** An environment with the two names the client needs and no credentials. *)
Definition names_only_environ (name : string) : option string :=
  if String.eqb name "ALIYUN_LOG_PROJECT" then Some "my-project"
  else if String.eqb name "ALIYUN_LOG_MEMORY_STORE" then Some "my-store"
  else None.

(** The four statements of the script, as operations of the client. *)
Definition example_operations : list operation :=
  [op_create_memory_store PNone PNone (PBool false) (PStr "default") (PInt 7);
   op_add (PStr "我住在杭州，喜欢杭州的风景，经常会去西湖玩")
     (PStr "user123") PNone PNone PNone PNone (PBool true) (PBool true);
   op_search (PStr "我住在哪里？") (PStr "user123") PNone PNone PNone PNone
     (PBool false);
   op_get_all (PStr "user123") PNone PNone PNone PNone].

(** * Properties *)

(** ** Helper lemmas *)

Lemma prefix_exists (p s : string) :
  String.prefix p s = true <-> exists post, s = p ++ post.
Proof.
  revert s; induction p as [|a p IH]; intros [|b s]; simpl.
  - split; [by exists "" | done].
  - split; [by exists (String b s) | done].
  - split; [done | intros [post ?]; discriminate].
  - destruct (Ascii.ascii_dec a b) as [->|Hne].
    + rewrite IH. split; intros [post Hp]; exists post.
      * by rewrite Hp.
      * by injection Hp.
    + split; [done | intros [post Hp]; injection Hp; done].
Qed.

(** [contains] is the substring test. *)
Lemma contains_exists (needle hay : string) :
  contains needle hay = true <-> exists pre post, hay = pre ++ needle ++ post.
Proof.
  induction hay as [|a hay IH].
  - change (contains needle "") with (String.prefix needle "" || false).
    rewrite orb_false_r, prefix_exists. split.
    + intros [post Hp]. by exists "", post.
    + intros [pre [post Hp]]. destruct pre; simpl in Hp; [by exists post | discriminate].
  - change (contains needle (String a hay))
      with (String.prefix needle (String a hay) || contains needle hay).
    rewrite orb_true_iff, prefix_exists, IH. split.
    + intros [[post Hp] | [pre [post Hp]]].
      * by exists "", post.
      * exists (String a pre), post. simpl. by rewrite Hp.
    + intros [pre [post Hp]]. destruct pre as [|b pre]; simpl in Hp.
      * left. by exists post.
      * right. exists pre, post. by injection Hp.
Qed.

Lemma for_each_Raise {A B} (f : A -> result B) (l : list A) (e : pyexc) :
  for_each f l = Raise e -> exists x, In x l /\ f x = Raise e.
Proof.
  induction l as [|x l IH]; simpl; [done|].
  destruct (f x) as [y|e'] eqn:Hx.
  - destruct (for_each f l) as [ys|e''] eqn:Hl; [done|].
    intros [= ->]. destruct (IH eq_refl) as [z [Hz Hfz]]. exists z. auto.
  - intros [= ->]. exists x. auto.
Qed.

(** ** The input normalizer *)

Lemma sync_prepare_mappings (ds : list (gmap string pyval)) :
  SLSMemoryClient._prepare_messages (PList (map PDict ds)) = Ok (map message_of ds).
Proof.
  unfold SLSMemoryClient._prepare_messages.
  induction ds as [|d ds IH]; simpl in *; [done | by rewrite IH].
Qed.

Lemma sync_prepare_list_not_validation (l : list pyval) :
  raises_ValidationError (SLSMemoryClient._prepare_messages (PList l)) = false.
Proof.
  unfold SLSMemoryClient._prepare_messages.
  destruct (for_each _ l) as [out|e] eqn:Hrun; [done|].
  apply for_each_Raise in Hrun as [msg [_ Hmsg]].
  destruct msg; simpl in Hmsg; by inversion Hmsg.
Qed.

Lemma sync_prepare_non_mapping_element (l : list pyval) :
  existsb (fun v => negb (is_mapping v)) l = true ->
  exists text, SLSMemoryClient._prepare_messages (PList l) = Raise (AttributeError text).
Proof.
  unfold SLSMemoryClient._prepare_messages.
  induction l as [|v l IH]; simpl; [done|].
  destruct v; simpl; eauto.
  intros Hl. destruct (IH Hl) as [text Htext]. simpl in Htext.
  rewrite Htext. eauto.
Qed.

(** C2: a string normalizes to the single user message carrying it, a
    single mapping is treated as the one-element list holding it, and a list
    of mappings yields one message per element, in the same order, where an
    absent "role" becomes "user" and an absent "content" the empty string. *)
Theorem prepare_messages_shapes :
  (forall s : string,
     SLSMemoryClient._prepare_messages (PStr s)
     = Ok [{| msg_role := PStr "user"; msg_content := PStr s |}])
  /\ (forall d : gmap string pyval,
        SLSMemoryClient._prepare_messages (PDict d)
        = SLSMemoryClient._prepare_messages (PList [PDict d])
        /\ SLSMemoryClient._prepare_messages (PDict d) = Ok [message_of d])
  /\ (forall ds : list (gmap string pyval),
        exists out,
          SLSMemoryClient._prepare_messages (PList (map PDict ds)) = Ok out
          /\ length out = length ds
          /\ forall i : nat, out !! i = message_of <$> (ds !! i))
  /\ (forall d : gmap string pyval,
        (d !! "role" = None -> msg_role (message_of d) = PStr "user")
        /\ (forall r, d !! "role" = Some r -> msg_role (message_of d) = r)
        /\ (d !! "content" = None -> msg_content (message_of d) = PStr "")
        /\ (forall c, d !! "content" = Some c -> msg_content (message_of d) = c)).
Proof.
  split; [done|]. split; [done|]. split.
  - intros ds. exists (map message_of ds). split; [apply sync_prepare_mappings|].
    split; [by rewrite length_map|]. intros i. by rewrite list_lookup_fmap.
  - intros d. unfold message_of. simpl.
    repeat split; intros; by simplify_option_eq.
Qed.

(** On the empty mapping, and on one that has a content. *)
Lemma prepare_messages_shapes_witness :
  msg_role (message_of ∅) = PStr "user"
  /\ msg_content (message_of {["content" := PStr "hi"]}) = PStr "hi".
Proof.
  split.
  - apply (proj1 (proj2 (proj2 (proj2 prepare_messages_shapes)) ∅)). reflexivity.
  - apply (proj2 (proj2 (proj2 (proj2 (proj2 (proj2 prepare_messages_shapes))
                                  {["content" := PStr "hi"]})))).
    reflexivity.
Defined.

(** C9: the only validation the normalizer performs is on the top-level
    argument, which must be a str, a dict or a list; a list with an element
    that is not a mapping raises no validation error but an AttributeError. *)
Theorem prepare_messages_checks_top_level_only :
  (forall messages : pyval,
     raises_ValidationError (SLSMemoryClient._prepare_messages messages)
     = negb (str_dict_or_list messages)
     /\ raises_ValidationError (AsyncSLSMemoryClient._prepare_messages messages)
        = negb (str_dict_or_list messages))
  /\ (forall l : list pyval,
        existsb (fun v => negb (is_mapping v)) l = true ->
        (raises_ValidationError (SLSMemoryClient._prepare_messages (PList l)) = false
         /\ exists text,
              SLSMemoryClient._prepare_messages (PList l) = Raise (AttributeError text))
        /\ (raises_ValidationError (AsyncSLSMemoryClient._prepare_messages (PList l)) = false
            /\ exists text,
                 AsyncSLSMemoryClient._prepare_messages (PList l)
                 = Raise (AttributeError text))).
Proof.
  split.
  - intros messages.
    assert (raises_ValidationError (SLSMemoryClient._prepare_messages messages)
            = negb (str_dict_or_list messages)) as H; [|split; exact H].
    destruct messages; try done.
    apply sync_prepare_list_not_validation.
  - intros l Hl.
    assert (raises_ValidationError (SLSMemoryClient._prepare_messages (PList l)) = false
            /\ exists text,
                 SLSMemoryClient._prepare_messages (PList l) = Raise (AttributeError text))
      as H; [|split; exact H].
    split; [apply sync_prepare_list_not_validation
           | by apply sync_prepare_non_mapping_element].
Qed.

(** A list whose second element is a string. *)
Lemma prepare_messages_checks_top_level_only_witness :
  raises_ValidationError
    (SLSMemoryClient._prepare_messages (PList [PDict ∅; PStr "hello"])) = false.
Proof.
  apply (proj2 prepare_messages_checks_top_level_only [PDict ∅; PStr "hello"]).
  reflexivity.
Defined.

(** C6 fails as stated: the list [[5]] is neither a string, nor a mapping,
    nor a sequence of mappings, and normalizing it raises an AttributeError,
    not a validation error. *)
Lemma prepare_messages_list_of_int_not_validation :
  is_string (PList [PInt 5]) = false
  /\ is_mapping (PList [PInt 5]) = false
  /\ sequence_of_mappings (PList [PInt 5]) = false
  /\ SLSMemoryClient._prepare_messages (PList [PInt 5])
     = Raise (AttributeError "'int' object has no attribute 'get'")
  /\ raises_ValidationError (SLSMemoryClient._prepare_messages (PList [PInt 5])) = false.
Proof. repeat split. Qed.

(** ** Running a method *)

Ltac run_method :=
  cbv beta delta
    [SLSMemoryClient.add SLSMemoryClient.get SLSMemoryClient.get_all
     SLSMemoryClient.search SLSMemoryClient.update SLSMemoryClient.delete
     SLSMemoryClient.delete_all SLSMemoryClient.history
     SLSMemoryClient.create_memory_store SLSMemoryClient.describe_memory_store
     SLSMemoryClient.update_memory_store SLSMemoryClient.delete_memory_store
     SLSMemoryClient.call
     AsyncSLSMemoryClient.add AsyncSLSMemoryClient.get AsyncSLSMemoryClient.get_all
     AsyncSLSMemoryClient.search AsyncSLSMemoryClient.update AsyncSLSMemoryClient.delete
     AsyncSLSMemoryClient.delete_all AsyncSLSMemoryClient.history
     AsyncSLSMemoryClient.create_memory_store AsyncSLSMemoryClient.describe_memory_store
     AsyncSLSMemoryClient.update_memory_store AsyncSLSMemoryClient.delete_memory_store
     AsyncSLSMemoryClient.call
     bind ret raise lift self try_except invoke extend];
  cbn beta iota zeta.

(** ** Local validation *)

(** C10: delete_all validates nothing: whatever the four scoping
    identifiers are, all absent included, it raises no validation error and
    makes the delete_memories call with exactly these identifiers. *)
Theorem delete_all_validates_nothing :
  forall (sdk : SLSClient.t) (user_id agent_id app_id run_id : pyval) (w : World),
    let request :=
      {| dm_user_id := user_id; dm_agent_id := agent_id; dm_app_id := app_id;
         dm_run_id := run_id |} in
    let sent := SLSClient.delete_memories (_project (this w)) (_memory_store (this w)) request in
    (raises_ValidationError
       (fst (SLSMemoryClient.delete_all sdk user_id agent_id app_id run_id w)) = false
     /\ snd (SLSMemoryClient.delete_all sdk user_id agent_id app_id run_id w)
        = extend w [SLSClient.Call SLSClient.Blocking sent])
    /\ (raises_ValidationError
          (fst (AsyncSLSMemoryClient.delete_all sdk user_id agent_id app_id run_id w)) = false
        /\ snd (AsyncSLSMemoryClient.delete_all sdk user_id agent_id app_id run_id w)
           = extend w [SLSClient.Call SLSClient.Suspending sent]).
Proof.
  intros sdk u a p r w request sent. subst request sent.
  split; run_method;
    match goal with |- context [SLSClient.respond ?s ?l ?c] =>
      destruct (SLSClient.respond s l c) end; done.
Qed.

Ltac case_respond :=
  match goal with
  | |- context [SLSClient.respond ?s ?l ?c] =>
      let E := fresh "Hrespond" in destruct (SLSClient.respond s l c) eqn:E
  end.

(** C5: an empty or null memory_id given to get, update, delete or history,
    an empty query given to search, and an update with neither text nor
    metadata raise a validation error and leave the log of SDK calls as it
    was: no call is made. *)
Theorem empty_arguments_fail_before_any_call :
  forall (sdk : SLSClient.t) (w : World),
    (forall memory_id : pyval,
       truthy memory_id = false ->
       let refused : result pyval * World :=
         (Raise (ValidationError "memory_id is required"), w) in
       (SLSMemoryClient.get sdk memory_id w = refused
        /\ (forall text metadata,
              SLSMemoryClient.update sdk memory_id text metadata w = refused)
        /\ SLSMemoryClient.delete sdk memory_id w = refused
        /\ SLSMemoryClient.history sdk memory_id w = refused)
       /\ (AsyncSLSMemoryClient.get sdk memory_id w = refused
           /\ (forall text metadata,
                 AsyncSLSMemoryClient.update sdk memory_id text metadata w = refused)
           /\ AsyncSLSMemoryClient.delete sdk memory_id w = refused
           /\ AsyncSLSMemoryClient.history sdk memory_id w = refused))
    /\ (forall query user_id agent_id app_id run_id top_k rerank : pyval,
          truthy query = false ->
          SLSMemoryClient.search sdk query user_id agent_id app_id run_id top_k rerank w
          = (Raise (ValidationError "query is required"), w)
          /\ AsyncSLSMemoryClient.search sdk query user_id agent_id app_id run_id top_k
               rerank w
             = (Raise (ValidationError "query is required"), w))
    /\ (forall memory_id : pyval,
          truthy memory_id = true ->
          SLSMemoryClient.update sdk memory_id PNone PNone w
          = (Raise (ValidationError "Either text or metadata must be provided for update."),
             w)
          /\ AsyncSLSMemoryClient.update sdk memory_id PNone PNone w
             = (Raise
                  (ValidationError "Either text or metadata must be provided for update."),
                w))
    /\ truthy (PStr "") = false
    /\ truthy PNone = false.
Proof.
  intros sdk w. repeat split; intros; run_method;
    repeat match goal with H : truthy _ = _ |- _ => rewrite H; clear H end; done.
Qed.

(** [delete(None)], [get("")], [search("")] and [update("m1")]. *)
Lemma empty_arguments_fail_before_any_call_witness :
  SLSMemoryClient.delete steady_sdk PNone sample_world
  = (Raise (ValidationError "memory_id is required"), sample_world)
  /\ SLSMemoryClient.get steady_sdk (PStr "") sample_world
     = (Raise (ValidationError "memory_id is required"), sample_world)
  /\ AsyncSLSMemoryClient.search steady_sdk (PStr "") PNone PNone PNone PNone PNone
       (PBool false) sample_world
     = (Raise (ValidationError "query is required"), sample_world)
  /\ SLSMemoryClient.update steady_sdk (PStr "m1") PNone PNone sample_world
     = (Raise (ValidationError "Either text or metadata must be provided for update."),
        sample_world).
Proof.
  pose proof (empty_arguments_fail_before_any_call steady_sdk sample_world)
    as (Hid & Hquery & Hupdate & _).
  split; [| split; [| split]].
  - apply (Hid PNone). reflexivity.
  - apply (Hid (PStr "")). reflexivity.
  - apply (Hquery (PStr "")). reflexivity.
  - apply (Hupdate (PStr "m1")). reflexivity.
Defined.

(** C8: with a non-empty memory_id, update passes local validation as soon
    as text or metadata is not None, however empty the value given: an empty
    text and an empty metadata mapping both reach the update_memory call. *)
Theorem update_accepts_empty_values :
  forall (sdk : SLSClient.t) (memory_id : pyval) (w : World),
    truthy memory_id = true ->
    (forall text metadata : pyval,
       is_None text && is_None metadata = false ->
       let sent :=
         SLSClient.update_memory (_project (this w)) (_memory_store (this w)) memory_id
           {| um_text := text; um_metadata := metadata |} in
       (raises_ValidationError (fst (SLSMemoryClient.update sdk memory_id text metadata w))
        = false
        /\ snd (SLSMemoryClient.update sdk memory_id text metadata w)
           = extend w [SLSClient.Call SLSClient.Blocking sent])
       /\ (raises_ValidationError
             (fst (AsyncSLSMemoryClient.update sdk memory_id text metadata w)) = false
           /\ snd (AsyncSLSMemoryClient.update sdk memory_id text metadata w)
              = extend w [SLSClient.Call SLSClient.Suspending sent]))
    /\ is_None (PStr "") && is_None PNone = false
    /\ is_None PNone && is_None (PDict ∅) = false.
Proof.
  intros sdk memory_id w Hid. split; [|done].
  intros text metadata Hgiven sent. subst sent.
  split; run_method; rewrite Hid, Hgiven; cbn; case_respond; done.
Qed.

(** [update("m1", text="")] and [update("m1", metadata={})]. *)
Lemma update_accepts_empty_values_witness :
  snd (SLSMemoryClient.update steady_sdk (PStr "m1") (PStr "") PNone sample_world)
  = extend sample_world
      [SLSClient.Call SLSClient.Blocking
         (SLSClient.update_memory (PStr "my-project") (PStr "my-store") (PStr "m1")
            {| um_text := PStr ""; um_metadata := PNone |})]
  /\ snd (AsyncSLSMemoryClient.update steady_sdk (PStr "m1") PNone (PDict ∅) sample_world)
     = extend sample_world
         [SLSClient.Call SLSClient.Suspending
            (SLSClient.update_memory (PStr "my-project") (PStr "my-store") (PStr "m1")
               {| um_text := PNone; um_metadata := PDict ∅ |})].
Proof.
  pose proof (update_accepts_empty_values steady_sdk (PStr "m1") sample_world eq_refl)
    as [Hgiven _].
  split.
  - apply (Hgiven (PStr "") PNone). reflexivity.
  - apply (Hgiven PNone (PDict ∅)). reflexivity.
Defined.

(** C6, as the code has it: an argument that is neither a str, nor a dict,
    nor a list is refused with a validation error whose message ends with the
    name of its type, and add stops there, before any SDK call. *)
Theorem prepare_messages_rejects_other_types :
  forall messages : pyval,
    str_dict_or_list messages = false ->
    let refusal :=
      ValidationError
        ("messages must be str, dict, or list[dict], got " ++ type_name messages) in
    SLSMemoryClient._prepare_messages messages = Raise refusal
    /\ AsyncSLSMemoryClient._prepare_messages messages = Raise refusal
    /\ forall (sdk : SLSClient.t)
              (user_id agent_id app_id run_id metadata infer custom_instructions
                 async_mode : pyval)
              (w : World),
         SLSMemoryClient.add sdk messages user_id agent_id app_id run_id metadata infer
           async_mode w
         = (Raise refusal, w)
         /\ AsyncSLSMemoryClient.add sdk messages user_id agent_id app_id run_id metadata
              infer custom_instructions async_mode w
            = (Raise refusal, w).
Proof.
  intros messages Hshape refusal. subst refusal.
  destruct messages; try discriminate Hshape; repeat split.
Qed.

(** An int, and a tuple of mappings. *)
Lemma prepare_messages_rejects_other_types_witness :
  SLSMemoryClient._prepare_messages (PInt 5)
  = Raise (ValidationError "messages must be str, dict, or list[dict], got int")
  /\ SLSMemoryClient.add steady_sdk (PTuple [PDict ∅]) PNone PNone PNone PNone PNone
       (PBool true) (PBool true) sample_world
     = (Raise (ValidationError "messages must be str, dict, or list[dict], got tuple"),
        sample_world).
Proof.
  split.
  - exact (proj1 (prepare_messages_rejects_other_types (PInt 5) eq_refl)).
  - destruct (prepare_messages_rejects_other_types (PTuple [PDict ∅]) eq_refl)
      as (_ & _ & Hadd).
    exact (proj1 (Hadd steady_sdk PNone PNone PNone PNone PNone (PBool true) PNone
                    (PBool true) sample_world)).
Defined.

(** ** The store provisioner *)

Lemma append_two {A} (l : list A) (x y : A) :
  ((l ++ [x]) ++ [y] = l ++ [x; y])%list.
Proof. by rewrite <- app_assoc. Qed.

(** C1: create_memory_store first tries to create the store.  When that
    succeeds, create_project is not called.  When it fails with an error whose
    text contains ProjectNotExist, create_project is called once, with the
    description "Auto-created by SLS Memory SDK", and once the project is
    created the store creation is retried once; a failure of either surfaces
    as it is.  When it fails
    without the marker, the error surfaces at once and create_project is not
    called.  Both facades. *)
Theorem create_memory_store_provisions_project_once :
  forall (sdk : SLSClient.t)
         (description custom_instructions enable_graph strategy short_term_ttl : pyval)
         (w : World),
    let request :=
      {| cms_name := _memory_store (this w);
         cms_description := description;
         cms_custom_instructions := custom_instructions;
         cms_enable_graph := enable_graph;
         cms_strategy := strategy;
         cms_short_term_ttl := short_term_ttl |} in
    provisioning_contract sdk SLSClient.Blocking
      (SLSMemoryClient.create_memory_store sdk description custom_instructions
         enable_graph strategy short_term_ttl)
      request w
    /\ provisioning_contract sdk SLSClient.Suspending
         (AsyncSLSMemoryClient.create_memory_store sdk description custom_instructions
            enable_graph strategy short_term_ttl)
         request w.
Proof.
  intros sdk d ci g s ttl w request. subst request.
  split; unfold provisioning_contract; cbv zeta; (split; [|split]).
  all: try (intros r Hfirst; run_method; by rewrite Hfirst).
  all: try (intros text Hfirst Hmarker; run_method;
            by rewrite Hfirst; cbn; rewrite Hmarker).
  all: intros text Hfirst Hmarker; split.
  all: try (intros text2 Hproject; run_method; rewrite Hfirst; cbn;
            rewrite Hmarker; cbn; rewrite Hproject, append_two; done).
  all: intros r2 Hproject; split.
  all: intros x Hretry; run_method; rewrite Hfirst; cbn; rewrite Hmarker; cbn;
    rewrite Hproject; cbn; rewrite append_two, Hretry; cbn;
    rewrite <- ?app_assoc; done.
Qed.

(** On an account without the project: create, provision, create again. *)
Lemma create_memory_store_provisions_project_once_witness :
  SLSMemoryClient.create_memory_store fresh_account_sdk PNone PNone (PBool false)
    (PStr "default") (PInt 7) sample_world
  = (Ok (status_and_headers plain_response),
     extend sample_world [sample_create; sample_provision; sample_create]).
Proof.
  destruct (create_memory_store_provisions_project_once fresh_account_sdk PNone PNone
              (PBool false) (PStr "default") (PInt 7) sample_world)
    as [(_ & _ & Hmarker) _].
  destruct (Hmarker "ProjectNotExist: The Project does not exist : my-project"
              eq_refl eq_refl) as [_ Hprovisioned].
  destruct (Hprovisioned plain_response eq_refl) as [_ Hretried].
  exact (Hretried plain_response eq_refl).
Defined.

(** ** The result flattener *)

(** C4: an absent body flattens to the empty mapping and an absent results
    list to the empty list.  With no body in the response, get and
    describe_memory_store return the empty mapping, history the empty list
    and add a mapping with an empty results list; get_all and search return a
    mapping with an empty results list when the body is absent and when its
    results are.  Both facades, and none of these raises. *)
Theorem absent_bodies_flatten_to_empty :
  (SLSMemoryClient._convert_memory_result PNone = Ok (PDict ∅)
   /\ SLSMemoryClient._convert_results_list PNone = Ok (PList [])
   /\ AsyncSLSMemoryClient._convert_memory_result PNone = Ok (PDict ∅)
   /\ AsyncSLSMemoryClient._convert_results_list PNone = Ok (PList []))
  /\ forall (sdk : SLSClient.t) (w : World),
       absent_body_contract sdk SLSClient.Blocking (sync_perform sdk)
         SLSMemoryClient._prepare_messages w
       /\ absent_body_contract sdk SLSClient.Suspending (async_perform sdk)
            AsyncSLSMemoryClient._prepare_messages w.
Proof.
  split; [done|]. intros sdk w.
  split; unfold absent_body_contract; cbv zeta; repeat split; intros;
    unfold sync_perform, async_perform; run_method;
    repeat match goal with
      | H : truthy _ = true |- _ => rewrite H; clear H
      | H : _ = Ok _ |- _ => rewrite H; clear H
      | H : SLSClient.respond _ _ _ = inr _ |- _ => rewrite H; clear H
      | H : body _ = PNone |- _ => rewrite H; clear H
      | H : _ \/ _ |- _ => destruct H as [H | (cls & attrs & to_map & H & Hresults)]
      | H : body _ = PObj _ _ _ |- _ => rewrite H; clear H
      | H : _ !! _ = Some _ |- _ => cbn; rewrite H; clear H
      | _ => progress cbn
      end; done.
Qed.

(** Against a service that sends no body, and one that sends no results. *)
Lemma absent_bodies_flatten_to_empty_witness :
  fst (sync_perform steady_sdk (op_get (PStr "m1")) sample_world) = Ok (PDict ∅)
  /\ fst (async_perform steady_sdk (op_history (PStr "m1")) sample_world) = Ok (PList [])
  /\ fst (sync_perform steady_sdk sample_add sample_world) = Ok empty_results
  /\ fst (sync_perform results_less_sdk (op_search (PStr "tennis") PNone PNone PNone PNone
                                          PNone (PBool false)) sample_world)
     = Ok empty_results.
Proof.
  destruct (proj2 absent_bodies_flatten_to_empty steady_sdk sample_world)
    as [(Hget & _ & _ & Hadd & _) (_ & _ & Hhistory & _)].
  destruct (proj2 absent_bodies_flatten_to_empty results_less_sdk sample_world)
    as [(_ & _ & _ & _ & _ & Hsearch) _].
  split; [|split; [|split]].
  - apply (Hget (PStr "m1") plain_response); reflexivity.
  - apply (Hhistory (PStr "m1") plain_response); reflexivity.
  - eapply (Hadd (PStr "I love playing tennis")); reflexivity.
  - apply (Hsearch (PStr "tennis") PNone PNone PNone PNone PNone (PBool false)
             results_less_response); [reflexivity | reflexivity |].
    right. exists "SearchMemoriesResponseBody", {["results" := PNone]}, (Some ∅).
    split; reflexivity.
Defined.

(** ** What a method can do to the client and what it can raise *)

Section Combinators.
Context {A B : Type}.

Lemma keeps_this_ret (a : A) : keeps_this (ret a).
Proof. done. Qed.

Lemma keeps_this_raise (e : pyexc) : keeps_this (@raise A e).
Proof. done. Qed.

Lemma keeps_this_lift (r : result A) : keeps_this (lift r).
Proof. done. Qed.

Lemma keeps_this_self : keeps_this self.
Proof. done. Qed.

Lemma keeps_this_invoke sdk c : keeps_this (invoke sdk c).
Proof. intros w. unfold invoke. by destruct (SLSClient.respond sdk (log w) c). Qed.

Lemma keeps_this_bind (m : M A) (k : A -> M B) :
  keeps_this m -> (forall a, keeps_this (k a)) -> keeps_this (bind m k).
Proof.
  intros Hm Hk w. unfold bind. specialize (Hm w).
  destruct (m w) as [[a|e] w']; simpl in *; [|done].
  by rewrite Hk.
Qed.

Lemma keeps_this_try_except (m : M A) (h : pyexc -> M A) :
  keeps_this m -> (forall e, keeps_this (h e)) -> keeps_this (try_except m h).
Proof.
  intros Hm Hh w. unfold try_except. specialize (Hm w).
  destruct (m w) as [[a|e] w']; simpl in *; [done|].
  by rewrite Hh.
Qed.

Lemma never_refuses_ret (a : A) : never_refuses (ret a).
Proof. done. Qed.

Lemma never_refuses_raise (e : pyexc) :
  is_ValidationError e = false -> never_refuses (@raise A e).
Proof. by intros He w. Qed.

Lemma never_refuses_lift (r : result A) :
  raises_ValidationError r = false -> never_refuses (lift r).
Proof. by intros Hr w. Qed.

Lemma never_refuses_self : never_refuses self.
Proof. done. Qed.

Lemma never_refuses_invoke sdk c : never_refuses (invoke sdk c).
Proof. intros w. unfold invoke. by destruct (SLSClient.respond sdk (log w) c). Qed.

Lemma never_refuses_bind (m : M A) (k : A -> M B) :
  never_refuses m -> (forall a, never_refuses (k a)) -> never_refuses (bind m k).
Proof.
  intros Hm Hk w. unfold bind. specialize (Hm w).
  destruct (m w) as [[a|e] w']; simpl in *; [|done].
  apply Hk.
Qed.

Lemma never_refuses_try_except (m : M A) (h : pyexc -> M A) :
  never_refuses m ->
  (forall e, is_ValidationError e = false -> never_refuses (h e)) ->
  never_refuses (try_except m h).
Proof.
  intros Hm Hh w. unfold try_except. specialize (Hm w).
  destruct (m w) as [[a|e] w']; simpl in *; [done|].
  by apply Hh.
Qed.

End Combinators.

Lemma dict_from_pairs_not_validation (l : list pyval) :
  raises_ValidationError (dict_from_pairs l) = false.
Proof.
  induction l as [|v l IH]; simpl; [done|].
  destruct (dict_item v) as [[k x]|e] eqn:Hv.
  - by destruct (dict_from_pairs l).
  - unfold dict_item in Hv.
    repeat (match type of Hv with context [match ?x with _ => _ end] => destruct x end;
            try discriminate); by inversion Hv.
Qed.

Lemma convert_memory_result_not_validation (r : pyval) :
  raises_ValidationError (SLSMemoryClient._convert_memory_result r) = false.
Proof.
  unfold SLSMemoryClient._convert_memory_result.
  destruct (hasattr_to_map r) eqn:Hmap.
  - destruct r as [| | | | | | |cls attrs [m|]]; done.
  - destruct (truthy r); [|done].
    destruct r as [| | | |l|l| |]; simpl; try done.
    + pose proof (dict_from_pairs_not_validation l). by destruct (dict_from_pairs l).
    + pose proof (dict_from_pairs_not_validation l). by destruct (dict_from_pairs l).
Qed.

Lemma convert_results_list_not_validation (rs : pyval) :
  raises_ValidationError (SLSMemoryClient._convert_results_list rs) = false.
Proof.
  unfold SLSMemoryClient._convert_results_list.
  destruct (truthy rs); [|done].
  destruct (iterate rs) as [l|e] eqn:Hit.
  - destruct (for_each _ l) as [out|e] eqn:Hrun; [done|].
    apply for_each_Raise in Hrun as [x [_ Hx]].
    pose proof (convert_memory_result_not_validation x) as Hnot.
    by rewrite Hx in Hnot.
  - destruct rs; simpl in Hit; by inversion Hit.
Qed.

Lemma getattr_results_not_validation (b : pyval) :
  raises_ValidationError (getattr_results b) = false.
Proof. destruct b; simpl; try done. by destruct (_ !! _). Qed.

Create HintDb frame.
#[local] Hint Resolve keeps_this_ret keeps_this_raise keeps_this_lift keeps_this_self
  keeps_this_invoke : frame.

Create HintDb refusal.
#[local] Hint Resolve never_refuses_ret never_refuses_self never_refuses_invoke
  convert_memory_result_not_validation convert_results_list_not_validation
  getattr_results_not_validation sync_prepare_list_not_validation : refusal.

Ltac unfold_methods :=
  cbv beta delta
    [sync_perform async_perform
     SLSMemoryClient.add SLSMemoryClient.get SLSMemoryClient.get_all
     SLSMemoryClient.search SLSMemoryClient.update SLSMemoryClient.delete
     SLSMemoryClient.delete_all SLSMemoryClient.history
     SLSMemoryClient.create_memory_store SLSMemoryClient.describe_memory_store
     SLSMemoryClient.update_memory_store SLSMemoryClient.delete_memory_store
     SLSMemoryClient.call
     AsyncSLSMemoryClient.add AsyncSLSMemoryClient.get AsyncSLSMemoryClient.get_all
     AsyncSLSMemoryClient.search AsyncSLSMemoryClient.update AsyncSLSMemoryClient.delete
     AsyncSLSMemoryClient.delete_all AsyncSLSMemoryClient.history
     AsyncSLSMemoryClient.create_memory_store AsyncSLSMemoryClient.describe_memory_store
     AsyncSLSMemoryClient.update_memory_store AsyncSLSMemoryClient.delete_memory_store
     AsyncSLSMemoryClient.call];
  cbn beta iota zeta.

Ltac frame_step :=
  match goal with
  | |- keeps_this (bind _ _) => apply keeps_this_bind; [|intros ?]
  | |- keeps_this (try_except _ _) => apply keeps_this_try_except; [|intros ?]
  | |- keeps_this (if ?b then _ else _) => destruct b
  | |- keeps_this _ => solve [auto with frame]
  end.

Lemma sync_perform_keeps_this sdk op : keeps_this (sync_perform sdk op).
Proof. destruct op; unfold_methods; repeat frame_step. Qed.

Lemma async_perform_keeps_this sdk op : keeps_this (async_perform sdk op).
Proof. destruct op; unfold_methods; repeat frame_step. Qed.

Lemma session_keeps_this (perform : operation -> M pyval) (ops : list operation) :
  (forall op, keeps_this (perform op)) ->
  forall w, this (session perform ops w) = this w.
Proof.
  intros Hop. induction ops as [|op ops IH]; intros w; simpl; [done|].
  by rewrite IH, Hop.
Qed.

Lemma async_convert_memory_result_not_validation (r : pyval) :
  raises_ValidationError (AsyncSLSMemoryClient._convert_memory_result r) = false.
Proof. exact (convert_memory_result_not_validation r). Qed.

Lemma async_convert_results_list_not_validation (rs : pyval) :
  raises_ValidationError (AsyncSLSMemoryClient._convert_results_list rs) = false.
Proof. exact (convert_results_list_not_validation rs). Qed.

Lemma async_prepare_list_not_validation (l : list pyval) :
  raises_ValidationError (AsyncSLSMemoryClient._prepare_messages (PList l)) = false.
Proof. exact (sync_prepare_list_not_validation l). Qed.

#[local] Hint Resolve async_convert_memory_result_not_validation
  async_convert_results_list_not_validation async_prepare_list_not_validation : refusal.

Ltac refusal_step :=
  match goal with
  | |- never_refuses (bind _ _) => apply never_refuses_bind; [|intros ?]
  | |- never_refuses (try_except _ _) => apply never_refuses_try_except; [|intros ? ?]
  | |- never_refuses (if ?b then _ else _) => destruct b
  | |- never_refuses (lift _) =>
      apply never_refuses_lift; first [reflexivity | solve [auto with refusal]]
  | |- never_refuses (raise _) => apply never_refuses_raise; assumption
  | |- never_refuses _ => solve [auto with refusal]
  end.

Ltac settle_refusal :=
  unfold_methods;
  repeat match goal with
    | |- context [negb (truthy ?v)] => destruct (truthy v); cbn [negb orb andb]
    | |- context [is_None ?v && is_None ?u] =>
        destruct (is_None v), (is_None u); cbn [negb orb andb]
    end;
  first
    [ reflexivity
    | match goal with
      | |- raises_ValidationError (fst (?m ?w)) = false =>
          revert w; change (never_refuses m); repeat refusal_step
      end ].

(** Whether an operation raises a validation error is decided by its
    arguments, not by the client or the service. *)
Lemma sync_perform_refusal sdk op w :
  raises_ValidationError (fst (sync_perform sdk op w)) = locally_refused op.
Proof.
  destruct op; cbn [locally_refused]; try settle_refusal.
  destruct messages; cbn [str_dict_or_list negb]; settle_refusal.
Qed.

Lemma async_perform_refusal sdk op w :
  raises_ValidationError (fst (async_perform sdk op w)) = locally_refused op.
Proof.
  destruct op; cbn [locally_refused]; try settle_refusal.
  destruct messages; cbn [str_dict_or_list negb]; settle_refusal.
Qed.

(** ** The client binding *)

(** C7: constructing a client with an empty project or memory_store raises
    a validation error; a constructed client holds the project and
    memory_store it was given, which are non-empty (non-empty strings for
    arguments of the declared type str); no operation changes them, however
    many are run; and no operation looks at them again to refuse a call.
    Both facades. *)
Theorem client_binding_fixed_at_construction :
  forall sdk : SLSClient.t,
    (forall config project memory_store : pyval,
       truthy project = false \/ truthy memory_store = false ->
       raises_ValidationError
         (SLSMemoryClient.__init__ sdk config project memory_store) = true
       /\ raises_ValidationError
            (AsyncSLSMemoryClient.__init__ sdk config project memory_store) = true)
    /\ (forall (config project memory_store : pyval) (c : Client),
          SLSMemoryClient.__init__ sdk config project memory_store = Ok c
          \/ AsyncSLSMemoryClient.__init__ sdk config project memory_store = Ok c ->
          _project c = project /\ truthy project = true
          /\ _memory_store c = memory_store /\ truthy memory_store = true)
    /\ (forall (config : pyval) (project memory_store : string) (c : Client),
          SLSMemoryClient.__init__ sdk config (PStr project) (PStr memory_store) = Ok c
          \/ AsyncSLSMemoryClient.__init__ sdk config (PStr project) (PStr memory_store)
             = Ok c ->
          _project c = PStr project /\ project <> ""
          /\ _memory_store c = PStr memory_store /\ memory_store <> "")
    /\ (forall (ops : list operation) (w : World),
          this (session (sync_perform sdk) ops w) = this w
          /\ this (session (async_perform sdk) ops w) = this w)
    /\ (forall (op : operation) (w w' : World),
          raises_ValidationError (fst (sync_perform sdk op w))
          = raises_ValidationError (fst (sync_perform sdk op w'))
          /\ raises_ValidationError (fst (async_perform sdk op w))
             = raises_ValidationError (fst (async_perform sdk op w'))).
Proof.
  intros sdk.
  assert (forall config project memory_store c,
            SLSMemoryClient.__init__ sdk config project memory_store = Ok c
            \/ AsyncSLSMemoryClient.__init__ sdk config project memory_store = Ok c ->
            _project c = project /\ truthy project = true
            /\ _memory_store c = memory_store /\ truthy memory_store = true) as Hbound.
  { intros config project memory_store c.
    unfold SLSMemoryClient.__init__, AsyncSLSMemoryClient.__init__.
    destruct (truthy project), (truthy memory_store); cbn;
      destruct (SLSClient.connect sdk config); intros [[=]|[=]]; by subst. }
  split; [|split; [exact Hbound|split; [|split]]].
  - intros config project memory_store.
    unfold SLSMemoryClient.__init__, AsyncSLSMemoryClient.__init__.
    destruct (truthy project), (truthy memory_store); cbn; intros [?|?]; done.
  - intros config project memory_store c Hc.
    destruct (Hbound _ _ _ _ Hc) as (Hp & Htp & Hm & Htm).
    repeat split; try done.
    + intros ->. discriminate Htp.
    + intros ->. discriminate Htm.
  - intros ops w. split; apply session_keeps_this; intros op.
    + apply sync_perform_keeps_this.
    + apply async_perform_keeps_this.
  - intros op w w'. by rewrite !sync_perform_refusal, !async_perform_refusal.
Qed.

(** An empty project, a null memory_store, and a client bound to both. *)
Lemma client_binding_fixed_at_construction_witness :
  raises_ValidationError
    (SLSMemoryClient.__init__ steady_sdk (PDict ∅) (PStr "") (PStr "my-store")) = true
  /\ raises_ValidationError
       (AsyncSLSMemoryClient.__init__ steady_sdk (PDict ∅) (PStr "my-project") PNone) = true
  /\ _project (this sample_world) = PStr "my-project" /\ "my-project" <> "".
Proof.
  pose proof (client_binding_fixed_at_construction steady_sdk)
    as (Hrefused & _ & Hstrings & _).
  split; [|split].
  - apply (Hrefused (PDict ∅) (PStr "") (PStr "my-store")). left. reflexivity.
  - apply (Hrefused (PDict ∅) (PStr "my-project") PNone). right. reflexivity.
  - destruct (Hstrings (PDict ∅) "my-project" "my-store" (this sample_world))
      as (Hp & Hne & _); [left; reflexivity | done].
Defined.

(** ** The two facades *)

Section Mirror.

Variables blocking suspending : SLSClient.t.

(** The service answers the [_async] variant of a call as it answers the
    blocking one. *)
Hypothesis same_service :
  forall before c,
    SLSClient.respond suspending (map as_async before) (as_async c)
    = SLSClient.respond blocking before c.

Lemma mirrors_ret {A} (a : A) : mirrors (ret a) (ret a).
Proof. done. Qed.

Lemma mirrors_raise {A} (e : pyexc) : mirrors (@raise A e) (raise e).
Proof. done. Qed.

Lemma mirrors_lift {A} (r : result A) : mirrors (lift r) (lift r).
Proof. done. Qed.

Lemma mirrors_self : mirrors self self.
Proof. done. Qed.

Lemma mirrors_bind {A B} (ma ms : M A) (ka ks : A -> M B) :
  mirrors ma ms -> (forall a, mirrors (ka a) (ks a)) -> mirrors (bind ma ka) (bind ms ks).
Proof.
  intros Hm Hk w. unfold bind. rewrite Hm.
  destruct (ms w) as [[a|e] w']; simpl; [apply Hk | done].
Qed.

Lemma mirrors_try_except {A} (ma ms : M A) (ha hs : pyexc -> M A) :
  mirrors ma ms -> (forall e, mirrors (ha e) (hs e)) ->
  mirrors (try_except ma ha) (try_except ms hs).
Proof.
  intros Hm Hh w. unfold try_except. rewrite Hm.
  destruct (ms w) as [[a|e] w']; simpl; [done | apply Hh].
Qed.

Lemma mirrors_invoke (m : SLSClient.method) :
  mirrors (invoke suspending (SLSClient.Call SLSClient.Suspending m))
          (invoke blocking (SLSClient.Call SLSClient.Blocking m)).
Proof.
  intros w. unfold invoke, asyncify. cbn [this log].
  change (SLSClient.Call SLSClient.Suspending m)
    with (as_async (SLSClient.Call SLSClient.Blocking m)).
  rewrite same_service.
  destruct (SLSClient.respond blocking (log w) _); cbn; by rewrite map_app.
Qed.

Ltac mirror_step :=
  match goal with
  | |- mirrors (bind _ _) (bind _ _) => apply mirrors_bind; [|intros ?]
  | |- mirrors (try_except _ _) (try_except _ _) => apply mirrors_try_except; [|intros ?]
  | |- mirrors (if ?b then _ else _) (if ?b then _ else _) => destruct b
  | |- mirrors (invoke _ _) (invoke _ _) => apply mirrors_invoke
  | |- mirrors (ret _) (ret _) => apply mirrors_ret
  | |- mirrors (raise _) (raise _) => apply mirrors_raise
  | |- mirrors (lift _) (lift _) => apply mirrors_lift
  | |- mirrors self self => apply mirrors_self
  end.

Lemma perform_mirrors (op : operation) :
  mirrors (async_perform suspending op) (sync_perform blocking op).
Proof. destruct op; unfold_methods; repeat mirror_step. Qed.

End Mirror.

Lemma what_as_async (l : list SLSClient.call) :
  map SLSClient.what (map as_async l) = map SLSClient.what l.
Proof. induction l as [|[how m] l IH]; simpl; [done | by rewrite IH]. Qed.



(** * Further properties *)

(** ** The log of SDK calls *)

Lemma extend_nil (w : World) : extend w [] = w.
Proof. destruct w as [c l]. unfold extend. cbn. by rewrite app_nil_r. Qed.

Lemma extend_extend (w : World) (cs ds : list SLSClient.call) :
  extend (extend w cs) ds = extend w (cs ++ ds)%list.
Proof. unfold extend. cbn. by rewrite app_assoc. Qed.

Section Budget.
Context {A B : Type}.

Lemma spends_ret (a : A) : spends 0 (ret a).
Proof. intros w. exists []. by rewrite extend_nil. Qed.

Lemma spends_raise (e : pyexc) : spends 0 (@raise A e).
Proof. intros w. exists []. by rewrite extend_nil. Qed.

Lemma spends_lift (r : result A) : spends 0 (lift r).
Proof. intros w. exists []. by rewrite extend_nil. Qed.

Lemma spends_self : spends 0 self.
Proof. intros w. exists []. by rewrite extend_nil. Qed.

Lemma spends_invoke sdk c : spends 1 (invoke sdk c).
Proof.
  intros w. exists [c]. unfold invoke.
  by destruct (SLSClient.respond sdk (log w) c).
Qed.

Lemma spends_bind (n k : nat) (m : M A) (f : A -> M B) :
  spends n m -> (forall a, spends k (f a)) -> spends (n + k) (bind m f).
Proof.
  intros Hm Hf w. unfold bind. destruct (Hm w) as (cs & Hcs & Hn).
  destruct (m w) as [[a|e] w']; cbn in *; subst w'.
  - destruct (Hf a (extend w cs)) as (ds & Hds & Hk).
    exists (cs ++ ds)%list. rewrite Hds, extend_extend, length_app. split; [done | lia].
  - exists cs. split; [done | lia].
Qed.

Lemma spends_try_except (n k : nat) (m : M A) (h : pyexc -> M A) :
  spends n m -> (forall e, spends k (h e)) -> spends (n + k) (try_except m h).
Proof.
  intros Hm Hh w. unfold try_except. destruct (Hm w) as (cs & Hcs & Hn).
  destruct (m w) as [[a|e] w']; cbn in *; subst w'.
  - exists cs. split; [done | lia].
  - destruct (Hh e (extend w cs)) as (ds & Hds & Hk).
    exists (cs ++ ds)%list. rewrite Hds, extend_extend, length_app. split; [done | lia].
Qed.

Lemma spends_if (n k : nat) (b : bool) (x y : M A) :
  spends n x -> spends k y -> spends (Nat.max n k) (if b then x else y).
Proof.
  intros Hx Hy w. destruct b.
  - destruct (Hx w) as (cs & Hcs & Hn). exists cs. split; [done | lia].
  - destruct (Hy w) as (cs & Hcs & Hk). exists cs. split; [done | lia].
Qed.

Lemma spends_more (n k : nat) (m : M A) : n <= k -> spends n m -> spends k m.
Proof.
  intros Hnk Hm w. destruct (Hm w) as (cs & Hcs & Hn). exists cs. split; [done | lia].
Qed.

End Budget.

Ltac budget_step :=
  match goal with
  | |- spends _ (bind _ _) => eapply spends_bind; [|intros ?]
  | |- spends _ (try_except _ _) => eapply spends_try_except; [|intros ?]
  | |- spends _ (if _ then _ else _) => eapply spends_if
  | |- spends _ (invoke _ _) => apply spends_invoke
  | |- spends _ (ret _) => apply spends_ret
  | |- spends _ (raise _) => apply spends_raise
  | |- spends _ (lift _) => apply spends_lift
  | |- spends _ self => apply spends_self
  end.

Lemma sync_perform_spends sdk op : spends (call_budget op) (sync_perform sdk op).
Proof.
  destruct op; unfold_methods; (eapply spends_more; [|repeat budget_step]).
  all: cbn; lia.
Qed.

Lemma async_perform_spends sdk op : spends (call_budget op) (async_perform sdk op).
Proof.
  destruct op; unfold_methods; (eapply spends_more; [|repeat budget_step]).
  all: cbn; lia.
Qed.

Lemma session_spends (perform : operation -> M pyval) (ops : list operation) :
  (forall op, spends (call_budget op) (perform op)) ->
  forall w, exists cs,
    session perform ops w = extend w cs
    /\ length cs <= list_sum (map call_budget ops).
Proof.
  intros Hop. induction ops as [|op ops IH]; intros w; cbn [session].
  - exists []. by rewrite extend_nil.
  - change (list_sum (map call_budget (op :: ops)))
      with (call_budget op + list_sum (map call_budget ops)).
    destruct (Hop op w) as (cs & Hcs & Hn). rewrite Hcs.
    destruct (IH (extend w cs)) as (ds & Hds & Hk).
    exists (cs ++ ds)%list. rewrite Hds, extend_extend, length_app. split; [done | lia].
Qed.

(** X1: an operation only appends to the log of SDK calls, and appends at
    most one call, or at most three when it is create_memory_store; a session
    of operations appends at most the sum of these.  Both facades. *)
Theorem operations_keep_to_their_call_budget :
  forall (sdk : SLSClient.t) (w : World),
    (forall op : operation,
       (exists cs, snd (sync_perform sdk op w) = extend w cs
                   /\ length cs <= call_budget op)
       /\ (exists cs, snd (async_perform sdk op w) = extend w cs
                      /\ length cs <= call_budget op))
    /\ (forall ops : list operation,
          (exists cs, session (sync_perform sdk) ops w = extend w cs
                      /\ length cs <= list_sum (map call_budget ops))
          /\ (exists cs, session (async_perform sdk) ops w = extend w cs
                         /\ length cs <= list_sum (map call_budget ops))).
Proof.
  intros sdk w. split.
  - intros op. split; [apply sync_perform_spends | apply async_perform_spends].
  - intros ops. split; apply session_spends; intros op;
      [apply sync_perform_spends | apply async_perform_spends].
Qed.

(** ** Validation and failures *)

Lemma extend_inj (w : World) (cs ds : list SLSClient.call) :
  extend w cs = extend w ds -> cs = ds.
Proof. unfold extend. intros [= H]. by apply app_inv_head in H. Qed.

Lemma extend_self (w : World) (cs : list SLSClient.call) :
  w = extend w cs -> cs = [].
Proof. rewrite <- (extend_nil w) at 1. intros H. symmetry. by apply extend_inj in H. Qed.

Ltac split_run :=
  repeat match goal with
    | |- context [match ?x with _ => _ end] =>
        lazymatch x with
        | context [match _ with _ => _ end] => fail
        | _ => destruct x eqn:?
        end
    end.

Lemma sync_failure_surfaces sdk op w c text :
  is_op_create_memory_store op = false ->
  snd (sync_perform sdk op w) = extend w [c] ->
  SLSClient.respond sdk (log w) c = inl text ->
  fst (sync_perform sdk op w) = Raise (SLSError text).
Proof.
  intros Hop Hlog Hfail. revert Hlog.
  destruct op; try discriminate Hop; unfold_methods;
    cbv beta delta [bind ret raise lift self try_except invoke]; cbn beta iota zeta;
    split_run; cbn [fst snd].
  all: intros Hlog.
  all: try (apply extend_self in Hlog; discriminate Hlog).
  all: apply (extend_inj w) in Hlog; injection Hlog as <-; congruence.
Qed.

Lemma async_failure_surfaces sdk op w c text :
  is_op_create_memory_store op = false ->
  snd (async_perform sdk op w) = extend w [c] ->
  SLSClient.respond sdk (log w) c = inl text ->
  fst (async_perform sdk op w) = Raise (SLSError text).
Proof.
  intros Hop Hlog Hfail. revert Hlog.
  destruct op; try discriminate Hop; unfold_methods;
    cbv beta delta [bind ret raise lift self try_except invoke]; cbn beta iota zeta;
    split_run; cbn [fst snd].
  all: intros Hlog.
  all: try (apply extend_self in Hlog; discriminate Hlog).
  all: apply (extend_inj w) in Hlog; injection Hlog as <-; congruence.
Qed.

(** X2: no operation swallows or rewrites a failure of the service: for
    every operation other than create_memory_store, when the call it made was
    answered with an error, the operation raises that very error.  Both
    facades. *)
Theorem service_failures_surface_unchanged :
  forall (sdk : SLSClient.t) (op : operation) (w : World) (c : SLSClient.call)
         (text : string),
    is_op_create_memory_store op = false ->
    SLSClient.respond sdk (log w) c = inl text ->
    (snd (sync_perform sdk op w) = extend w [c] ->
     fst (sync_perform sdk op w) = Raise (SLSError text))
    /\ (snd (async_perform sdk op w) = extend w [c] ->
        fst (async_perform sdk op w) = Raise (SLSError text)).
Proof.
  intros sdk op w c text Hop Hfail. split; intros Hlog.
  - by apply (sync_failure_surfaces sdk op w c text).
  - by apply (async_failure_surfaces sdk op w c text).
Qed.

(** [get("m1")] against a service that refuses every call. *)
Lemma service_failures_surface_unchanged_witness :
  fst (sync_perform failing_sdk (op_get (PStr "m1")) sample_world)
  = Raise (SLSError "Unauthorized: signature mismatch").
Proof.
  refine (proj1 (service_failures_surface_unchanged failing_sdk (op_get (PStr "m1"))
                   sample_world
                   (SLSClient.Call SLSClient.Blocking
                      (SLSClient.get_memory (PStr "my-project") (PStr "my-store")
                         (PStr "m1")))
                   "Unauthorized: signature mismatch" eq_refl eq_refl) eq_refl).
Defined.

(** ** Operations that read no body *)

(** X3: update_memory_store, delete_memory_store and delete_memory read no
    body and, the first two, check nothing: whatever the settings, all absent
    included, update_memory_store makes its one call on the bound project and
    store, and each of the three returns the status code and headers of the
    response, or raises the error of the service.  Both facades. *)
Theorem store_management_checks_nothing :
  forall (sdk : SLSClient.t) (w : World)
         (description custom_instructions enable_graph strategy short_term_ttl : pyval),
    let project := _project (this w) in
    let store := _memory_store (this w) in
    let update :=
      SLSClient.update_memory_store project store
        {| ums_description := description;
           ums_custom_instructions := custom_instructions;
           ums_enable_graph := enable_graph;
           ums_strategy := strategy;
           ums_short_term_ttl := short_term_ttl |} in
    let delete := SLSClient.delete_memory_store project store in
    let ran (how : SLSClient.sched) (m : SLSClient.method) : result pyval * World :=
      (status_outcome (SLSClient.respond sdk (log w) (SLSClient.Call how m)),
       extend w [SLSClient.Call how m]) in
    (SLSMemoryClient.update_memory_store sdk description custom_instructions enable_graph
       strategy short_term_ttl w = ran SLSClient.Blocking update
     /\ SLSMemoryClient.delete_memory_store sdk w = ran SLSClient.Blocking delete)
    /\ (AsyncSLSMemoryClient.update_memory_store sdk description custom_instructions
          enable_graph strategy short_term_ttl w = ran SLSClient.Suspending update
        /\ AsyncSLSMemoryClient.delete_memory_store sdk w = ran SLSClient.Suspending delete)
    /\ (forall memory_id : pyval,
          truthy memory_id = true ->
          SLSMemoryClient.delete sdk memory_id w
          = ran SLSClient.Blocking (SLSClient.delete_memory project store memory_id)
          /\ AsyncSLSMemoryClient.delete sdk memory_id w
             = ran SLSClient.Suspending (SLSClient.delete_memory project store memory_id)).
Proof.
  intros sdk w d ci g s ttl project store update delete ran.
  subst project store update delete ran.
  repeat split; intros; run_method;
    repeat match goal with H : truthy _ = true |- _ => rewrite H; clear H end;
    cbn; case_respond; done.
Qed.

(** [delete("m1")] against the steady service. *)
Lemma store_management_checks_nothing_witness :
  SLSMemoryClient.delete steady_sdk (PStr "m1") sample_world
  = (Ok (status_and_headers plain_response),
     extend sample_world
       [SLSClient.Call SLSClient.Blocking
          (SLSClient.delete_memory (PStr "my-project") (PStr "my-store") (PStr "m1"))]).
Proof.
  destruct (store_management_checks_nothing steady_sdk sample_world PNone PNone PNone
              PNone PNone) as (_ & _ & Hdelete).
  exact (proj1 (Hdelete (PStr "m1") eq_refl)).
Defined.


(** ** The flattener on plain data *)

Lemma dict_empty_of_falsy (d : gmap string pyval) :
  truthy (PDict d) = false -> d = ∅.
Proof.
  cbn. destruct (map_to_list d) eqn:Hd; [|done].
  intros _. by apply map_to_list_empty_iff.
Qed.

Lemma convert_memory_result_dict (d : gmap string pyval) :
  SLSMemoryClient._convert_memory_result (PDict d) = Ok (PDict d).
Proof.
  unfold SLSMemoryClient._convert_memory_result. cbn [hasattr_to_map].
  destruct (truthy (PDict d)) eqn:Hd; [done|].
  by rewrite (dict_empty_of_falsy d Hd).
Qed.

Lemma convert_memory_result_flat (v : pyval) (m : gmap string pyval) :
  flat_of v = Some m -> SLSMemoryClient._convert_memory_result v = Ok (PDict m).
Proof.
  destruct v as [| | | | | |d|cls attrs [m'|]]; try discriminate; intros [= <-].
  - apply convert_memory_result_dict.
  - reflexivity.
Qed.

Lemma for_each_flat (items : list pyval) (ms : list (gmap string pyval)) :
  mapM flat_of items = Some ms ->
  for_each SLSMemoryClient._convert_memory_result items = Ok (PDict <$> ms).
Proof.
  revert ms. induction items as [|v items IH]; intros ms; cbn.
  - by intros [= <-].
  - destruct (flat_of v) as [m|] eqn:Hv; cbn; [|done].
    destruct (mapM flat_of items) as [ms'|]; cbn; [|done].
    intros [= <-]. by rewrite (convert_memory_result_flat v m Hv), (IH ms' eq_refl).
Qed.

Lemma convert_results_list_flat (items : list pyval) (ms : list (gmap string pyval)) :
  mapM flat_of items = Some ms ->
  SLSMemoryClient._convert_results_list (PList items) = Ok (PList (PDict <$> ms)).
Proof.
  intros Hflat. unfold SLSMemoryClient._convert_results_list.
  destruct items as [|v items].
  - cbn in Hflat. by injection Hflat as <-.
  - cbn [truthy iterate]. by rewrite (for_each_flat _ _ Hflat).
Qed.

Lemma results_list_falsy_flat (items : list pyval) (ms : list (gmap string pyval)) :
  truthy (PList items) = false -> mapM flat_of items = Some ms -> ms = [].
Proof. destruct items; [|done]. cbn. by intros _ [= <-]. Qed.

(** X4: what the service sends is what the caller gets.  When the body of
    the response is an SDK model object, get, describe_memory_store and add
    return the mapping its to_map gives, and when it is a mapping they return
    that mapping; when it holds a list of such items, history, get_all and
    search return their mappings, as many and in the same order (get_all and
    search under the key results).  Both facades. *)
Theorem present_bodies_are_returned_flattened :
  forall (sdk : SLSClient.t) (w : World),
    present_body_contract sdk SLSClient.Blocking (sync_perform sdk)
      SLSMemoryClient._prepare_messages w
    /\ present_body_contract sdk SLSClient.Suspending (async_perform sdk)
         AsyncSLSMemoryClient._prepare_messages w.
Proof.
  assert (forall b d, flat_of b = Some d -> truthy b = false -> d = ∅) as Hempty.
  { intros [| | | | | |d'|cls attrs [m'|]] d; try discriminate.
    intros [= <-] Hb. by apply dict_empty_of_falsy. }
  intros sdk w.
  split; unfold present_body_contract; cbv zeta; repeat split; intros;
    unfold sync_perform, async_perform; run_method;
    repeat match goal with
      | H : truthy _ = true |- _ => rewrite H; clear H
      | H : _ = Ok _ |- _ => rewrite H; clear H
      | H : SLSClient.respond _ _ _ = inr _ |- _ => rewrite H; clear H
      | H : exists _, _ |- _ => destruct H as (cls & attrs & to_map & H & Hresults)
      | H : body _ = _ |- _ => rewrite H in *; clear H
      | H : _ !! _ = Some _ |- _ => cbn; rewrite H; clear H
      | _ => progress cbn [fst snd getattr_results negb]
      end.
  all: try match goal with
         | |- context [truthy ?b] =>
             let Hb := fresh "Hb" in
             destruct (truthy b) eqn:Hb; cbn [fst snd]
         end.
  all: try match goal with
         | H : flat_of _ = Some _ |- _ =>
             first [ change (AsyncSLSMemoryClient._convert_memory_result)
                       with (SLSMemoryClient._convert_memory_result)
                   | idtac ];
             first [ by rewrite (convert_memory_result_flat _ _ H)
                   | by rewrite (Hempty _ _ H) ]
         end.
  all: try match goal with
         | H : mapM flat_of _ = Some _ |- _ =>
             first [ change (AsyncSLSMemoryClient._convert_results_list)
                       with (SLSMemoryClient._convert_results_list)
                   | idtac ];
             first [ rewrite (convert_results_list_flat _ _ H); cbn [fst];
                     by rewrite ?insert_insert_eq
                   | by rewrite (results_list_falsy_flat _ _ ltac:(eassumption) H) ]
         end.
Qed.

(** [get_all()] against a service that holds two memories. *)
Lemma present_bodies_are_returned_flattened_witness :
  fst (sync_perform two_memories_sdk (op_get_all PNone PNone PNone PNone PNone)
         sample_world)
  = Ok (PDict
          {["results" :=
              PList [PDict {["id" := PStr "m1"; "memory" := PStr "loves tennis"]};
                     PDict {["id" := PStr "m2"; "memory" := PStr "lives in Hangzhou"]}]]}).
Proof.
  destruct (present_bodies_are_returned_flattened two_memories_sdk sample_world)
    as [(_ & _ & _ & _ & Hall & _) _].
  apply (Hall PNone PNone PNone PNone PNone two_memories_response
           [tennis_memory; hangzhou_memory]
           [{["id" := PStr "m1"; "memory" := PStr "loves tennis"]};
            {["id" := PStr "m2"; "memory" := PStr "lives in Hangzhou"]}]);
    [reflexivity | | reflexivity].
  exists "GetMemoriesResponseBody",
    {["results" := PList [tennis_memory; hangzhou_memory]]},
    (Some {["results" := PList []]}).
  split; reflexivity.
Defined.

Lemma convert_memory_result_is_dict (v u : pyval) :
  SLSMemoryClient._convert_memory_result v = Ok u -> exists d, u = PDict d.
Proof.
  unfold SLSMemoryClient._convert_memory_result.
  destruct (hasattr_to_map v).
  - destruct v as [| | | | | | |cls attrs [m|]]; cbn; intros [= <-]; eauto.
  - destruct (truthy v); [|intros [= <-]; eauto].
    destruct (dict v); intros [= <-]; eauto.
Qed.

Lemma for_each_pointwise {A B} (f : A -> result B) (l : list A) (ys : list B) :
  for_each f l = Ok ys -> Forall2 (fun x y => f x = Ok y) l ys.
Proof.
  revert ys. induction l as [|x l IH]; intros ys; cbn.
  - intros [= <-]. constructor.
  - destruct (f x) as [y|e] eqn:Hx; [|done].
    destruct (for_each f l) as [ys'|e]; [|done].
    intros [= <-]. constructor; [done | by apply IH].
Qed.

Lemma convert_results_list_is_list (v u : pyval) :
  SLSMemoryClient._convert_results_list v = Ok u ->
  exists ds : list (gmap string pyval), u = PList (PDict <$> ds).
Proof.
  unfold SLSMemoryClient._convert_results_list.
  destruct (truthy v); [|intros [= <-]; by exists []].
  destruct (iterate v) as [l|e]; [|done].
  destruct (for_each _ l) as [out|e] eqn:Hout; [|done].
  intros [= <-]. apply for_each_pointwise in Hout.
  clear -Hout. induction Hout as [|x y l ys Hx _ [ds Hds]]; [by exists []|].
  destruct (convert_memory_result_is_dict _ _ Hx) as [d ->].
  exists (d :: ds). cbn. by injection Hds as ->.
Qed.

(** X5: flattening a list keeps its length and its order: when
    _convert_results_list succeeds on a list, the result is a list of
    mappings with one element per input element, the element at each index
    being the flattening of the input element at that index; and it succeeds
    on every list of SDK model objects and mappings. *)
Theorem convert_results_list_is_elementwise :
  (forall (items : list pyval) (out : pyval),
     SLSMemoryClient._convert_results_list (PList items) = Ok out ->
     exists ds : list (gmap string pyval),
       out = PList (PDict <$> ds)
       /\ length ds = length items
       /\ forall (i : nat) (v : pyval),
            items !! i = Some v ->
            exists d, ds !! i = Some d
                      /\ SLSMemoryClient._convert_memory_result v = Ok (PDict d))
  /\ (forall items : list pyval,
        Forall (fun v => is_Some (flat_of v)) items ->
        exists ds : list (gmap string pyval),
          SLSMemoryClient._convert_results_list (PList items) = Ok (PList (PDict <$> ds))
          /\ Forall2 (fun v d => flat_of v = Some d) items ds).
Proof.
  split.
  - intros items out Hout.
    destruct (convert_results_list_is_list _ _ Hout) as [ds ->]. exists ds.
    split; [done|].
    assert (Forall2 (fun v u => SLSMemoryClient._convert_memory_result v = Ok u)
              items (PDict <$> ds)) as Hpoint.
    { unfold SLSMemoryClient._convert_results_list in Hout.
      destruct items as [|v items]; cbn [truthy iterate] in Hout.
      - injection Hout as Hout. destruct ds; [constructor | discriminate Hout].
      - destruct (for_each _ (v :: items)) as [ys|e] eqn:Hys; [|done].
        injection Hout as ->. by apply for_each_pointwise. }
    split.
    + apply Forall2_length in Hpoint. by rewrite length_fmap in Hpoint.
    + intros i v Hi.
      destruct (Forall2_lookup_l _ _ _ _ _ Hpoint Hi) as (u & Hu & Hconv).
      rewrite list_lookup_fmap in Hu.
      destruct (ds !! i) as [d|]; [|done]. injection Hu as <-. eauto.
  - intros items Hitems.
    assert (exists ds, mapM flat_of items = Some ds) as [ds Hds].
    { induction Hitems as [|v items [d Hd] _ [ds Hds]]; [by exists []|].
      exists (d :: ds). cbn. by rewrite Hd, Hds. }
    exists ds. split; [by apply convert_results_list_flat|].
    by apply mapM_Some_1.
Qed.

(** The two memories of the sample service. *)
Lemma convert_results_list_is_elementwise_witness :
  exists ds : list (gmap string pyval),
    SLSMemoryClient._convert_results_list (PList [tennis_memory; hangzhou_memory])
    = Ok (PList (PDict <$> ds))
    /\ Forall2 (fun v d => flat_of v = Some d) [tennis_memory; hangzhou_memory] ds.
Proof.
  apply (proj2 convert_results_list_is_elementwise [tennis_memory; hangzhou_memory]).
  repeat constructor; eexists; reflexivity.
Defined.

(** X6: flattening is idempotent: what _convert_memory_result and
    _convert_results_list return is plain data, which they return unchanged
    when given it again. *)
Theorem flattening_is_idempotent :
  (forall v u : pyval,
     SLSMemoryClient._convert_memory_result v = Ok u ->
     SLSMemoryClient._convert_memory_result u = Ok u)
  /\ (forall v u : pyval,
        SLSMemoryClient._convert_results_list v = Ok u ->
        SLSMemoryClient._convert_results_list u = Ok u).
Proof.
  split; intros v u Hu.
  - destruct (convert_memory_result_is_dict _ _ Hu) as [d ->].
    apply convert_memory_result_dict.
  - destruct (convert_results_list_is_list _ _ Hu) as [ds ->].
    apply convert_results_list_flat.
    clear. induction ds as [|d ds IH]; [done|]. cbn. by rewrite IH.
Qed.

(** Flattening the two memories, twice. *)
Lemma flattening_is_idempotent_witness :
  SLSMemoryClient._convert_results_list
    (PList [PDict {["id" := PStr "m1"; "memory" := PStr "loves tennis"]};
            PDict {["id" := PStr "m2"; "memory" := PStr "lives in Hangzhou"]}])
  = Ok (PList [PDict {["id" := PStr "m1"; "memory" := PStr "loves tennis"]};
               PDict {["id" := PStr "m2"; "memory" := PStr "lives in Hangzhou"]}]).
Proof.
  apply (proj2 flattening_is_idempotent (PList [tennis_memory; hangzhou_memory])).
  reflexivity.
Defined.

(** ** What an operation returns *)

Ltac unfold_monad :=
  cbv beta delta [bind ret raise lift self try_except invoke]; cbn beta iota zeta.

Ltac settle_shape :=
  match goal with
  | H : SLSMemoryClient._convert_memory_result _ = Ok _ |- _ =>
      destruct (convert_memory_result_is_dict _ _ H) as [? ->]; eauto
  | H : AsyncSLSMemoryClient._convert_memory_result _ = Ok _ |- _ =>
      destruct (convert_memory_result_is_dict _ _ H) as [? ->]; eauto
  | H : SLSMemoryClient._convert_results_list _ = Ok _ |- _ =>
      destruct (convert_results_list_is_list _ _ H) as [? ->];
      rewrite ?insert_insert_eq; eauto
  | H : AsyncSLSMemoryClient._convert_results_list _ = Ok _ |- _ =>
      destruct (convert_results_list_is_list _ _ H) as [? ->];
      rewrite ?insert_insert_eq; eauto
  | |- exists ds : list _, PList [] = _ => by exists []
  | |- exists ds : list _, PDict _ = _ => by exists []
  | _ => unfold status_and_headers; eauto
  end.

Lemma sync_perform_well_shaped sdk op w v :
  fst (sync_perform sdk op w) = Ok v -> well_shaped op v.
Proof.
  destruct op; cbn [well_shaped]; unfold_methods; unfold_monad; split_run;
    cbn [fst]; intros Hv; try discriminate Hv;
    try (injection Hv as <-); settle_shape.
Qed.

Lemma async_perform_well_shaped sdk op w v :
  fst (async_perform sdk op w) = Ok v -> well_shaped op v.
Proof.
  destruct op; cbn [well_shaped]; unfold_methods; unfold_monad; split_run;
    cbn [fst]; intros Hv; try discriminate Hv;
    try (injection Hv as <-); settle_shape.
Qed.

(** X7: whatever the service answers, an operation that returns returns a
    value of its documented shape: a list of mappings for history, a mapping
    with the one key results holding a list of mappings for get_all and
    search, a mapping with the keys status_code and headers for update,
    delete, delete_all and the store operations that read no body, and a
    mapping for add, get and describe_memory_store; never None.  Both
    facades. *)
Theorem operations_return_their_shape :
  forall (sdk : SLSClient.t) (op : operation) (w : World) (v : pyval),
    (fst (sync_perform sdk op w) = Ok v -> well_shaped op v)
    /\ (fst (async_perform sdk op w) = Ok v -> well_shaped op v).
Proof.
  intros sdk op w v. split;
    [apply sync_perform_well_shaped | apply async_perform_well_shaped].
Qed.

(** [get_all()] against the service that holds two memories. *)
Lemma operations_return_their_shape_witness :
  well_shaped (op_get_all PNone PNone PNone PNone PNone)
    (PDict
       {["results" :=
           PList [PDict {["id" := PStr "m1"; "memory" := PStr "loves tennis"]};
                  PDict {["id" := PStr "m2"; "memory" := PStr "lives in Hangzhou"]}]]}).
Proof.
  apply (proj1 (operations_return_their_shape two_memories_sdk
                  (op_get_all PNone PNone PNone PNone PNone) sample_world _)).
  reflexivity.
Defined.

(** ** More on the input normalizer *)

Lemma all_mappings_are_dicts (l : list pyval) :
  forallb is_mapping l = true -> exists ds : list (gmap string pyval), l = PDict <$> ds.
Proof.
  induction l as [|v l IH]; cbn; [by exists []|].
  destruct v; try done. cbn. intros Hl. destruct (IH Hl) as [ds ->].
  by exists (d :: ds).
Qed.

Lemma some_element_is_no_mapping (l : list pyval) :
  forallb is_mapping l = false -> existsb (fun v => negb (is_mapping v)) l = true.
Proof.
  induction l as [|v l IH]; cbn; [done|].
  destruct (is_mapping v); cbn; [exact IH | done].
Qed.

(** X8: only the keys role and content of a message mapping are read:
    adding, changing or removing any other key changes nothing in what the
    normalizer produces, for a single mapping and inside a list. *)
Theorem prepare_messages_reads_role_and_content_only :
  forall (d : gmap string pyval) (k : string) (v : pyval),
    k <> "role" -> k <> "content" ->
    SLSMemoryClient._prepare_messages (PDict (<[k := v]> d))
    = SLSMemoryClient._prepare_messages (PDict d)
    /\ SLSMemoryClient._prepare_messages (PDict (delete k d))
       = SLSMemoryClient._prepare_messages (PDict d)
    /\ forall before after : list (gmap string pyval),
         SLSMemoryClient._prepare_messages
           (PList (PDict <$> (before ++ <[k := v]> d :: after)%list))
         = SLSMemoryClient._prepare_messages
             (PList (PDict <$> (before ++ d :: after)%list)).
Proof.
  intros d k v Hrole Hcontent.
  assert (message_of (<[k := v]> d) = message_of d) as Hsame.
  { unfold message_of. by rewrite !lookup_insert_ne. }
  split; [|split].
  - cbn. by rewrite !lookup_insert_ne.
  - cbn. by rewrite !lookup_delete_ne.
  - intros before after.
    change (fmap (M := list) PDict) with (map PDict).
    rewrite !sync_prepare_mappings, !map_app. cbn [map]. by rewrite Hsame.
Qed.

(** A message that also carries a name. *)
Lemma prepare_messages_reads_role_and_content_only_witness :
  SLSMemoryClient._prepare_messages
    (PDict (<["name" := PStr "alice"]> {["content" := PStr "hi"]}))
  = SLSMemoryClient._prepare_messages (PDict {["content" := PStr "hi"]}).
Proof.
  apply (prepare_messages_reads_role_and_content_only {["content" := PStr "hi"]}
           "name" (PStr "alice")); discriminate.
Defined.



(** ** add *)

(** X10: add normalizes before it calls.  When the normalizer raises,
    whatever it raises, add raises the same and makes no call; when it
    returns messages, add makes exactly one add_memories call, which carries
    these messages and the other arguments as given.  The request of the
    synchronous add never carries custom_instructions; that of the
    asynchronous add carries the one it was given. *)
Theorem add_normalizes_then_calls_once :
  forall (sdk : SLSClient.t)
         (messages user_id agent_id app_id run_id metadata infer custom_instructions
            async_mode : pyval)
         (w : World),
    (forall e : pyexc,
       SLSMemoryClient._prepare_messages messages = Raise e ->
       SLSMemoryClient.add sdk messages user_id agent_id app_id run_id metadata infer
         async_mode w = (Raise e, w)
       /\ AsyncSLSMemoryClient.add sdk messages user_id agent_id app_id run_id metadata
            infer custom_instructions async_mode w = (Raise e, w))
    /\ (forall msgs : list AddMemoriesRequestMessages,
          SLSMemoryClient._prepare_messages messages = Ok msgs ->
          let request (ci : pyval) :=
            SLSClient.add_memories (_project (this w)) (_memory_store (this w))
              {| add_messages := msgs; add_user_id := user_id; add_agent_id := agent_id;
                 add_app_id := app_id; add_run_id := run_id; add_metadata := metadata;
                 add_infer := infer; add_custom_instructions := ci;
                 add_async_mode := async_mode |} in
          snd (SLSMemoryClient.add sdk messages user_id agent_id app_id run_id metadata
                 infer async_mode w)
          = extend w [SLSClient.Call SLSClient.Blocking (request PNone)]
          /\ snd (AsyncSLSMemoryClient.add sdk messages user_id agent_id app_id run_id
                    metadata infer custom_instructions async_mode w)
             = extend w [SLSClient.Call SLSClient.Suspending
                           (request custom_instructions)]).
Proof.
  intros sdk messages u a p r md i ci am w. split.
  - intros e He.
    change (AsyncSLSMemoryClient._prepare_messages messages = Raise e) in He.
    split; run_method.
    + change (SLSMemoryClient._prepare_messages messages = Raise e) in He.
      by rewrite He.
    + by rewrite He.
  - intros msgs Hmsgs request. subst request.
    split; run_method.
    + rewrite Hmsgs. cbn. case_respond; cbn; [done|].
      by destruct (truthy (body _)).
    + change (AsyncSLSMemoryClient._prepare_messages messages = Ok msgs) in Hmsgs.
      rewrite Hmsgs. cbn. case_respond; cbn; [done|].
      by destruct (truthy (body _)).
Qed.

(** A list holding a number stops add before any call; a string is sent as
    one user message. *)
Lemma add_normalizes_then_calls_once_witness :
  SLSMemoryClient.add steady_sdk (PList [PInt 5]) PNone PNone PNone PNone PNone
    (PBool true) (PBool true) sample_world
  = (Raise (AttributeError "'int' object has no attribute 'get'"), sample_world)
  /\ snd (AsyncSLSMemoryClient.add steady_sdk (PStr "I love tennis") (PStr "user123")
            PNone PNone PNone PNone (PBool true) (PStr "keep it short") (PBool true)
            sample_world)
     = extend sample_world
         [SLSClient.Call SLSClient.Suspending
            (SLSClient.add_memories (PStr "my-project") (PStr "my-store")
               {| add_messages :=
                    [{| msg_role := PStr "user"; msg_content := PStr "I love tennis" |}];
                  add_user_id := PStr "user123"; add_agent_id := PNone;
                  add_app_id := PNone; add_run_id := PNone; add_metadata := PNone;
                  add_infer := PBool true;
                  add_custom_instructions := PStr "keep it short";
                  add_async_mode := PBool true |})].
Proof.
  split.
  - exact (proj1 (proj1 (add_normalizes_then_calls_once steady_sdk (PList [PInt 5]) PNone
                           PNone PNone PNone PNone (PBool true) PNone (PBool true)
                           sample_world) _ eq_refl)).
  - exact (proj2 (proj2 (add_normalizes_then_calls_once steady_sdk (PStr "I love tennis")
                           (PStr "user123") PNone PNone PNone PNone (PBool true)
                           (PStr "keep it short") (PBool true) sample_world)
                    _ eq_refl)).
Defined.

(** ** More on the store provisioner *)

Lemma sync_provisioning_runs sdk d ci g s ttl w :
  let create :=
    SLSClient.Call SLSClient.Blocking
      (SLSClient.create_memory_store (_project (this w))
         {| cms_name := _memory_store (this w); cms_description := d;
            cms_custom_instructions := ci; cms_enable_graph := g; cms_strategy := s;
            cms_short_term_ttl := ttl |}) in
  exists cs,
    snd (SLSMemoryClient.create_memory_store sdk d ci g s ttl w) = extend w (create :: cs)
    /\ existsb SLSClient.is_create_project (create :: cs)
       = match SLSClient.respond sdk (log w) create with
         | inl text => contains "ProjectNotExist" text
         | inr _ => false
         end.
Proof.
  intros create. subst create. run_method.
  case_respond; cbn; [|by exists []].
  match goal with
  | |- context [contains "ProjectNotExist" ?t] =>
      destruct (contains "ProjectNotExist" t); cbn; [|by exists []]
  end.
  case_respond; cbn.
  - eexists [_]. by rewrite <- app_assoc.
  - case_respond; cbn; eexists [_; _]; by rewrite <- !app_assoc.
Qed.

Lemma async_provisioning_runs sdk d ci g s ttl w :
  let create :=
    SLSClient.Call SLSClient.Suspending
      (SLSClient.create_memory_store (_project (this w))
         {| cms_name := _memory_store (this w); cms_description := d;
            cms_custom_instructions := ci; cms_enable_graph := g; cms_strategy := s;
            cms_short_term_ttl := ttl |}) in
  exists cs,
    snd (AsyncSLSMemoryClient.create_memory_store sdk d ci g s ttl w)
    = extend w (create :: cs)
    /\ existsb SLSClient.is_create_project (create :: cs)
       = match SLSClient.respond sdk (log w) create with
         | inl text => contains "ProjectNotExist" text
         | inr _ => false
         end.
Proof.
  intros create. subst create. run_method.
  case_respond; cbn; [|by exists []].
  match goal with
  | |- context [contains "ProjectNotExist" ?t] =>
      destruct (contains "ProjectNotExist" t); cbn; [|by exists []]
  end.
  case_respond; cbn.
  - eexists [_]. by rewrite <- app_assoc.
  - case_respond; cbn; eexists [_; _]; by rewrite <- !app_assoc.
Qed.

Lemma marker_decides (answer : string + Response) :
  match answer with
  | inl text => contains "ProjectNotExist" text
  | inr _ => false
  end = true
  <-> exists pre post, answer = inl (pre ++ "ProjectNotExist" ++ post).
Proof.
  destruct answer as [text|r].
  - rewrite contains_exists. split; intros (pre & post & H); exists pre, post.
    + by rewrite H.
    + by injection H.
  - split; [done | intros (pre & post & H); discriminate H].
Qed.

(** X11: create_memory_store always starts with the store-creation call,
    and it goes on to create the project exactly when that call fails with an
    error whose text has ProjectNotExist somewhere in it, at the start, in
    the middle or at the end; a success or any other text creates no
    project.  Both facades. *)
Theorem project_is_created_iff_marker_in_error_text :
  forall (sdk : SLSClient.t)
         (description custom_instructions enable_graph strategy short_term_ttl : pyval)
         (w : World),
    let create (how : SLSClient.sched) :=
      SLSClient.Call how
        (SLSClient.create_memory_store (_project (this w))
           {| cms_name := _memory_store (this w);
              cms_description := description;
              cms_custom_instructions := custom_instructions;
              cms_enable_graph := enable_graph;
              cms_strategy := strategy;
              cms_short_term_ttl := short_term_ttl |}) in
    (exists cs,
       snd (SLSMemoryClient.create_memory_store sdk description custom_instructions
              enable_graph strategy short_term_ttl w)
       = extend w (create SLSClient.Blocking :: cs)
       /\ (existsb SLSClient.is_create_project (create SLSClient.Blocking :: cs) = true
           <-> exists pre post,
                 SLSClient.respond sdk (log w) (create SLSClient.Blocking)
                 = inl (pre ++ "ProjectNotExist" ++ post)))
    /\ (exists cs,
          snd (AsyncSLSMemoryClient.create_memory_store sdk description custom_instructions
                 enable_graph strategy short_term_ttl w)
          = extend w (create SLSClient.Suspending :: cs)
          /\ (existsb SLSClient.is_create_project (create SLSClient.Suspending :: cs) = true
              <-> exists pre post,
                    SLSClient.respond sdk (log w) (create SLSClient.Suspending)
                    = inl (pre ++ "ProjectNotExist" ++ post))).
Proof.
  intros sdk d ci g s ttl w create. subst create. cbv beta. split.
  - destruct (sync_provisioning_runs sdk d ci g s ttl w) as (cs & Hrun & Hmade).
    exists cs. split; [exact Hrun|]. rewrite Hmade. apply marker_decides.
  - destruct (async_provisioning_runs sdk d ci g s ttl w) as (cs & Hrun & Hmade).
    exists cs. split; [exact Hrun|]. rewrite Hmade. apply marker_decides.
Qed.

(** ** Construction *)

(** X12: a client is constructed exactly when project and memory_store are
    both true values and the SDK client can be built from the configuration;
    project is checked first, so that with both missing the error names the
    project; and a refusal does not depend on the configuration.  Both
    facades. *)
Theorem construction_succeeds_iff :
  forall (sdk : SLSClient.t) (config project memory_store : pyval),
    ((exists c, SLSMemoryClient.__init__ sdk config project memory_store = Ok c)
     <-> truthy project = true /\ truthy memory_store = true
         /\ exists handle, SLSClient.connect sdk config = inr handle)
    /\ AsyncSLSMemoryClient.__init__ sdk config project memory_store
       = SLSMemoryClient.__init__ sdk config project memory_store
    /\ (truthy project = false ->
        SLSMemoryClient.__init__ sdk config project memory_store
        = Raise (ValidationError "project is required"))
    /\ (truthy project = true -> truthy memory_store = false ->
        SLSMemoryClient.__init__ sdk config project memory_store
        = Raise (ValidationError "memory_store is required"))
    /\ (forall text,
          truthy project = true -> truthy memory_store = true ->
          SLSClient.connect sdk config = inl text ->
          SLSMemoryClient.__init__ sdk config project memory_store
          = Raise (SLSError text)).
Proof.
  intros sdk config project memory_store.
  unfold AsyncSLSMemoryClient.__init__, SLSMemoryClient.__init__.
  split; [|split; [done|]].
  - destruct (truthy project), (truthy memory_store); cbn;
      destruct (SLSClient.connect sdk config) as [text|handle]; split;
      try (intros [c Hc]; discriminate Hc);
      try (intros (Hp & Hm & [h Hh]); discriminate);
      eauto.
  - destruct (truthy project), (truthy memory_store); cbn;
      destruct (SLSClient.connect sdk config) as [text|handle];
      repeat split; intros; congruence.
Qed.

(** Both names missing: the project is the one reported. *)
Lemma construction_succeeds_iff_witness :
  SLSMemoryClient.__init__ failing_sdk (PDict ∅) PNone PNone
  = Raise (ValidationError "project is required")
  /\ exists c, SLSMemoryClient.__init__ steady_sdk (PDict ∅) (PStr "my-project")
                 (PStr "my-store") = Ok c.
Proof.
  destruct (construction_succeeds_iff failing_sdk (PDict ∅) PNone PNone)
    as (_ & _ & Hproject & _).
  split; [exact (Hproject eq_refl)|].
  apply (proj1 (construction_succeeds_iff steady_sdk (PDict ∅) (PStr "my-project")
                  (PStr "my-store"))).
  repeat split. by eexists.
Defined.

(** X13: the properties project and memory_store give back what the client
    was constructed with, right after construction and after any session of
    operations, whatever these returned or raised, and reading them makes no
    call.  Both facades. *)
Theorem bound_names_read_back :
  forall (sdk : SLSClient.t) (config project memory_store : pyval) (c : Client)
         (ops : list operation) (calls : list SLSClient.call),
    SLSMemoryClient.__init__ sdk config project memory_store = Ok c ->
    let fresh := {| this := c; log := calls |} in
    let later := session (sync_perform sdk) ops fresh in
    let later_async := session (async_perform sdk) ops fresh in
    (SLSMemoryClient.project later = (Ok project, later)
     /\ SLSMemoryClient.memory_store later = (Ok memory_store, later))
    /\ (AsyncSLSMemoryClient.project later_async = (Ok project, later_async)
        /\ AsyncSLSMemoryClient.memory_store later_async
           = (Ok memory_store, later_async)).
Proof.
  intros sdk config project memory_store c ops calls Hc fresh later later_async.
  assert (_project c = project /\ _memory_store c = memory_store) as [Hp Hm].
  { revert Hc. unfold SLSMemoryClient.__init__.
    destruct (truthy project), (truthy memory_store); cbn;
      destruct (SLSClient.connect sdk config); intros [= <-]; done. }
  assert (this later = c) as Hlater.
  { subst later. rewrite session_keeps_this; [done|].
    intros op. apply sync_perform_keeps_this. }
  assert (this later_async = c) as Hlater_async.
  { subst later_async. rewrite session_keeps_this; [done|].
    intros op. apply async_perform_keeps_this. }
  unfold SLSMemoryClient.project, SLSMemoryClient.memory_store,
    AsyncSLSMemoryClient.project, AsyncSLSMemoryClient.memory_store, bind, self, ret.
  rewrite Hlater, Hlater_async, Hp, Hm. done.
Qed.

(** After an add and a refused get on a freshly constructed client. *)
Lemma bound_names_read_back_witness :
  fst (SLSMemoryClient.project
         (session (sync_perform fresh_account_sdk) [sample_add; op_get (PStr "")]
            sample_world))
  = Ok (PStr "my-project").
Proof.
  pose proof (bound_names_read_back fresh_account_sdk (PDict ∅) (PStr "my-project")
                (PStr "my-store") (this sample_world) [sample_add; op_get (PStr "")] []
                eq_refl) as [[Hproject _] _].
  exact (f_equal fst Hproject).
Defined.

(** On an account without the project, create_memory_store creates it. *)
Lemma project_is_created_iff_marker_in_error_text_witness :
  exists cs,
    snd (SLSMemoryClient.create_memory_store fresh_account_sdk PNone PNone (PBool false)
           (PStr "default") (PInt 7) sample_world)
    = extend sample_world (sample_create :: cs)
    /\ existsb SLSClient.is_create_project (sample_create :: cs) = true.
Proof.
  destruct (proj1 (project_is_created_iff_marker_in_error_text fresh_account_sdk PNone
                     PNone (PBool false) (PStr "default") (PInt 7) sample_world))
    as (cs & Hrun & Hmade).
  exists cs. split; [exact Hrun|]. apply Hmade.
  by exists "", ": The Project does not exist : my-project".
Defined.

(** ** Sessions under the two facades *)

Lemma session_mirrors (blocking suspending : SLSClient.t) :
  (forall before c,
     SLSClient.respond suspending (map as_async before) (as_async c)
     = SLSClient.respond blocking before c) ->
  forall (ops : list operation) (w : World),
    session (async_perform suspending) ops (asyncify w)
    = asyncify (session (sync_perform blocking) ops w).
Proof.
  intros Hsame. induction ops as [|op ops IH]; intros w; cbn [session]; [done|].
  rewrite (perform_mirrors blocking suspending Hsame op w). cbn [snd]. apply IH.
Qed.



(** ** The flattener at the edges *)

(** X15: every false value flattens to the empty mapping, and to the empty
    list as a list of results: None, False, 0, the empty string, the empty
    list, tuple and mapping alike.  A non-empty string and a non-zero number
    are not flattened but refused, with a ValueError and a TypeError. *)
Theorem flattening_at_the_edges :
  (forall v : pyval,
     truthy v = false ->
     SLSMemoryClient._convert_memory_result v = Ok (PDict ∅)
     /\ SLSMemoryClient._convert_results_list v = Ok (PList []))
  /\ (forall s : string,
        s <> "" ->
        exists text, SLSMemoryClient._convert_memory_result (PStr s)
                     = Raise (ValueError text))
  /\ (forall z : Z,
        z <> 0%Z ->
        exists text, SLSMemoryClient._convert_memory_result (PInt z)
                     = Raise (TypeError text)).
Proof.
  split; [|split].
  - intros v Hv. unfold SLSMemoryClient._convert_memory_result,
      SLSMemoryClient._convert_results_list.
    rewrite Hv. by destruct v as [| | | | | | |cls attrs [m|]].
  - intros s Hs. unfold SLSMemoryClient._convert_memory_result. cbn.
    destruct (String.eqb_spec s ""); [done|]. cbn. eauto.
  - intros z Hz. unfold SLSMemoryClient._convert_memory_result. cbn.
    destruct (Z.eqb_spec z 0); [done|]. cbn. eauto.
Qed.

(** The empty mapping, and a body that is a piece of text. *)
Lemma flattening_at_the_edges_witness :
  SLSMemoryClient._convert_memory_result (PDict ∅) = Ok (PDict ∅)
  /\ exists text, SLSMemoryClient._convert_memory_result (PStr "OK")
                  = Raise (ValueError text).
Proof.
  destruct flattening_at_the_edges as (Hfalse & Htext & _).
  split.
  - exact (proj1 (Hfalse (PDict ∅) eq_refl)).
  - apply (Htext "OK"). discriminate.
Defined.

(** ** Which calls an operation makes *)

Section Confinement.
Context {A B : Type}.
Variable how : SLSClient.sched.
Variable allowed : SLSClient.method -> bool.
Variable c : Client.

Lemma confined_ret (a : A) : confined how allowed c (ret a).
Proof. intros w _. exists []. by rewrite extend_nil. Qed.

Lemma confined_raise (e : pyexc) : confined how allowed c (@raise A e).
Proof. intros w _. exists []. by rewrite extend_nil. Qed.

Lemma confined_lift (r : result A) : confined how allowed c (lift r).
Proof. intros w _. exists []. by rewrite extend_nil. Qed.

Lemma confined_invoke sdk (m : SLSClient.method) :
  allowed m = true -> addressed_to c m ->
  confined how allowed c (invoke sdk (SLSClient.Call how m)).
Proof.
  intros Hm Hc w _. exists [SLSClient.Call how m]. unfold invoke.
  split; [by destruct (SLSClient.respond sdk (log w) _)|].
  by repeat constructor.
Qed.

Lemma confined_bind (m : M A) (f : A -> M B) :
  confined how allowed c m -> (forall a, confined how allowed c (f a)) ->
  confined how allowed c (bind m f).
Proof.
  intros Hm Hf w Hw. unfold bind. destruct (Hm w Hw) as (cs & Hcs & Hall).
  destruct (m w) as [[a|e] w']; cbn in *; subst w'; [|by exists cs].
  destruct (Hf a (extend w cs) Hw) as (ds & Hds & Hall').
  exists (cs ++ ds)%list. rewrite Hds, extend_extend. split; [done|].
  apply Forall_app. by split.
Qed.

Lemma confined_bind_self (f : Client -> M A) :
  confined how allowed c (f c) -> confined how allowed c (bind self f).
Proof. intros Hf w Hw. unfold bind, self. rewrite Hw. by apply Hf. Qed.

Lemma confined_try_except (m : M A) (h : pyexc -> M A) :
  confined how allowed c m -> (forall e, confined how allowed c (h e)) ->
  confined how allowed c (try_except m h).
Proof.
  intros Hm Hh w Hw. unfold try_except. destruct (Hm w Hw) as (cs & Hcs & Hall).
  destruct (m w) as [[a|e] w']; cbn in *; subst w'; [by exists cs|].
  destruct (Hh e (extend w cs) Hw) as (ds & Hds & Hall').
  exists (cs ++ ds)%list. rewrite Hds, extend_extend. split; [done|].
  apply Forall_app. by split.
Qed.

End Confinement.

Ltac confine_step :=
  match goal with
  | |- confined _ _ _ (bind self _) => apply confined_bind_self
  | |- confined _ _ _ (bind _ _) => apply confined_bind; [|intros ?]
  | |- confined _ _ _ (try_except _ _) => apply confined_try_except; [|intros ?]
  | |- confined _ _ _ (if ?b then _ else _) => destruct b
  | |- confined _ _ _ (invoke _ _) => apply confined_invoke; [reflexivity | by cbn]
  | |- confined _ _ _ (ret _) => apply confined_ret
  | |- confined _ _ _ (raise _) => apply confined_raise
  | |- confined _ _ _ (lift _) => apply confined_lift
  end.

Lemma sync_perform_confined sdk op c :
  confined SLSClient.Blocking (serves op) c (sync_perform sdk op).
Proof. destruct op; unfold_methods; repeat confine_step. Qed.

Lemma async_perform_confined sdk op c :
  confined SLSClient.Suspending (serves op) c (async_perform sdk op).
Proof. destruct op; unfold_methods; repeat confine_step. Qed.

(** X16: an operation calls nothing but the SDK method it is named after
    (create_memory_store also create_project), through the blocking variant
    under the synchronous facade and the awaited one under the asynchronous,
    and every call it makes names the project and the memory store the
    client is bound to: a client never reaches into another project or
    store. *)
Theorem operations_call_their_method_on_the_bound_names :
  forall (sdk : SLSClient.t) (op : operation) (w : World),
    (exists cs,
       snd (sync_perform sdk op w) = extend w cs
       /\ Forall (fun made =>
                    made = SLSClient.Call SLSClient.Blocking (SLSClient.what made)
                    /\ serves op (SLSClient.what made) = true
                    /\ addressed_to (this w) (SLSClient.what made)) cs)
    /\ (exists cs,
          snd (async_perform sdk op w) = extend w cs
          /\ Forall (fun made =>
                       made = SLSClient.Call SLSClient.Suspending (SLSClient.what made)
                       /\ serves op (SLSClient.what made) = true
                       /\ addressed_to (this w) (SLSClient.what made)) cs).
Proof.
  intros sdk op w. split.
  - by apply (sync_perform_confined sdk op (this w)).
  - by apply (async_perform_confined sdk op (this w)).
Qed.

(** ** The example script *)

Lemma print_each_extends sdk (c : Client) (ops : list operation) :
  forall w, this w = c ->
    exists cs,
      snd (example.print_each (map (sync_perform sdk) ops) w) = extend w cs
      /\ length cs <= list_sum (map call_budget ops)
      /\ Forall (fun made =>
                   made = SLSClient.Call SLSClient.Blocking (SLSClient.what made)
                   /\ existsb (fun op => serves op (SLSClient.what made)) ops = true
                   /\ addressed_to c (SLSClient.what made)) cs.
Proof.
  induction ops as [|op ops IH]; intros w Hw; cbn [map example.print_each].
  - exists []. rewrite extend_nil. repeat split; [cbn; lia | constructor].
  - change (list_sum (call_budget op :: map call_budget ops))
      with (call_budget op + list_sum (map call_budget ops)).
    destruct (sync_perform_spends sdk op w) as (cs & Hcs & Hn).
    destruct (sync_perform_confined sdk op c w Hw) as (cs' & Hcs' & Hall).
    assert (cs' = cs) as -> by (apply (extend_inj w); congruence).
    assert (Forall (fun made =>
                      made = SLSClient.Call SLSClient.Blocking (SLSClient.what made)
                      /\ existsb (fun op => serves op (SLSClient.what made)) (op :: ops)
                         = true
                      /\ addressed_to c (SLSClient.what made)) cs) as Hcs_ok.
    { eapply Forall_impl; [exact Hall|]. intros made (Hhow & Hserves & Hto).
      cbn [existsb]. by rewrite Hserves. }
    destruct (sync_perform sdk op w) as [[v|e] w']; cbn [snd] in Hcs; subst w'.
    + destruct (IH (extend w cs) Hw) as (ds & Hds & Hk & Hall').
      destruct (example.print_each _ (extend w cs)) as [[out stopped] w''].
      cbn [snd] in *. subst w''. exists (cs ++ ds)%list.
      rewrite extend_extend, length_app.
      repeat split; [lia|]. apply Forall_app. split; [done|].
      eapply Forall_impl; [exact Hall'|]. intros made (Hhow & Hserves & Hto).
      cbn [existsb]. rewrite Hserves. by rewrite orb_true_r.
    + cbn [snd]. exists cs. repeat split; [lia | done].
Qed.

Lemma print_each_printed (steps : list (M pyval)) (w : World) :
  length (example.print_each steps w).1.1 <= length steps
  /\ ((example.print_each steps w).1.2 = None
      <-> length (example.print_each steps w).1.1 = length steps).
Proof.
  revert w. induction steps as [|step steps IH]; intros w; cbn [example.print_each].
  - cbn. split; [lia | done].
  - destruct (step w) as [[v|e] w'].
    + specialize (IH w').
      destruct (example.print_each steps w') as [[out stopped] w'']. cbn in *.
      destruct IH as [Hle Hiff]. split; [lia|]. rewrite Hiff. split; lia.
    + cbn. split; [lia|]. split; [done | lia].
Qed.

Lemma print_each_never_refuses sdk (ops : list operation) :
  forallb (fun op => negb (locally_refused op)) ops = true ->
  forall w e,
    (example.print_each (map (sync_perform sdk) ops) w).1.2 = Some e ->
    is_ValidationError e = false.
Proof.
  induction ops as [|op ops IH]; intros Hops w e; cbn [map example.print_each];
    [done|].
  cbn [forallb] in Hops. apply andb_prop in Hops as [Hop Hops].
  pose proof (sync_perform_refusal sdk op w) as Hrun.
  destruct (sync_perform sdk op w) as [[v|e'] w'].
  - specialize (IH Hops w' e).
    destruct (example.print_each _ w') as [[out stopped] w'']. exact IH.
  - cbn in *. intros [= <-]. rewrite Hrun. by destruct (locally_refused op).
Qed.

Lemma example_main_runs sdk environ client :
  SLSMemoryClient.__init__ sdk
    (example.Config (example.getenv environ "ALIYUN_LOG_ACCESS_KEY_ID")
       (example.getenv environ "ALIYUN_LOG_ACCESS_KEY_SECRET")
       (example.getenv environ "ALIYUN_LOG_ENDPOINT"))
    (example.getenv environ "ALIYUN_LOG_PROJECT")
    (example.getenv environ "ALIYUN_LOG_MEMORY_STORE") = Ok client ->
  let run :=
    example.print_each (map (sync_perform sdk) example_operations)
      {| this := client; log := [] |} in
  example.main sdk environ
  = {| example.printed := run.1.1; example.raised := run.1.2;
       example.calls := log run.2 |}.
Proof.
  intros Hclient run. subst run. unfold example.main. rewrite Hclient.
  change (map (sync_perform sdk) example_operations) with
    [SLSMemoryClient.create_memory_store sdk PNone PNone (PBool false)
       (PStr "default") (PInt 7);
     SLSMemoryClient.add sdk
       (PStr "我住在杭州，喜欢杭州的风景，经常会去西湖玩")
       (PStr "user123") PNone PNone PNone PNone (PBool true) (PBool true);
     SLSMemoryClient.search sdk (PStr "我住在哪里？") (PStr "user123")
       PNone PNone PNone PNone (PBool false);
     SLSMemoryClient.get_all sdk (PStr "user123") PNone PNone PNone PNone].
  by destruct (example.print_each _ _) as [[out stopped] w].
Qed.

Lemma example_client_names sdk config project store client :
  SLSMemoryClient.__init__ sdk config project store = Ok client ->
  _project client = project /\ _memory_store client = store
  /\ truthy project = true /\ truthy store = true.
Proof.
  unfold SLSMemoryClient.__init__.
  destruct (truthy project), (truthy store); cbn; try discriminate.
  destruct (SLSClient.connect sdk config); [discriminate|]. by intros [= <-].
Qed.

(** X17: the example script needs the project and the memory store named
    in its environment: when one is unset or empty it stops at construction
    with the validation error, having printed nothing and called nothing.
    With both names set no validation error can stop it any more, whatever
    the credentials are, missing ones included. *)
Theorem example_needs_project_and_store_names :
  forall (sdk : SLSClient.t) (environ : string -> option string),
    let project := example.getenv environ "ALIYUN_LOG_PROJECT" in
    let store := example.getenv environ "ALIYUN_LOG_MEMORY_STORE" in
    (forall name, environ name = None \/ environ name = Some "" ->
                  truthy (example.getenv environ name) = false)
    /\ (truthy project = false ->
        example.main sdk environ
        = {| example.printed := [];
             example.raised := Some (ValidationError "project is required");
             example.calls := [] |})
    /\ (truthy project = true -> truthy store = false ->
        example.main sdk environ
        = {| example.printed := [];
             example.raised := Some (ValidationError "memory_store is required");
             example.calls := [] |})
    /\ (truthy project = true -> truthy store = true ->
        forall e, example.raised (example.main sdk environ) = Some e ->
                  is_ValidationError e = false).
Proof.
  intros sdk environ project store. subst project store.
  split; [|split; [|split]].
  - intros name [Hname|Hname]; unfold example.getenv; by rewrite Hname.
  - intros Hp. unfold example.main, SLSMemoryClient.__init__. by rewrite Hp.
  - intros Hp Hs. unfold example.main, SLSMemoryClient.__init__. by rewrite Hp, Hs.
  - intros Hp Hs e.
    destruct (SLSMemoryClient.__init__ sdk
                (example.Config (example.getenv environ "ALIYUN_LOG_ACCESS_KEY_ID")
                   (example.getenv environ "ALIYUN_LOG_ACCESS_KEY_SECRET")
                   (example.getenv environ "ALIYUN_LOG_ENDPOINT"))
                (example.getenv environ "ALIYUN_LOG_PROJECT")
                (example.getenv environ "ALIYUN_LOG_MEMORY_STORE"))
      as [client|e'] eqn:Hclient.
    + rewrite (example_main_runs sdk environ client Hclient). cbn [example.raised].
      by apply print_each_never_refuses.
    + unfold example.main. rewrite Hclient. cbn [example.raised]. intros [= <-].
      revert Hclient. unfold SLSMemoryClient.__init__. rewrite Hp, Hs. cbn [negb].
      destruct (SLSClient.connect sdk _); by intros [= <-].
Qed.

(** With no variable set at all. *)
Lemma example_needs_project_and_store_names_witness :
  example.main steady_sdk (fun _ => None)
  = {| example.printed := [];
       example.raised := Some (ValidationError "project is required");
       example.calls := [] |}.
Proof.
  apply (proj1 (proj2 (example_needs_project_and_store_names steady_sdk (fun _ => None)))).
  reflexivity.
Defined.

(** X18: whatever the service does, the example script makes at most six
    calls, all of them blocking calls to create_memory_store, create_project,
    add_memories, search_memories or get_memories on the project and store
    of its environment, so that it never updates or deletes anything; it
    prints at most four results, and exactly four when nothing stopped it. *)
Theorem example_only_creates_adds_and_reads :
  forall (sdk : SLSClient.t) (environ : string -> option string),
    let run := example.main sdk environ in
    length (example.calls run) <= 6
    /\ Forall (fun made =>
                 example_call made = true
                 /\ forall handle,
                      addressed_to
                        {| _client := handle;
                           _project := example.getenv environ "ALIYUN_LOG_PROJECT";
                           _memory_store :=
                             example.getenv environ "ALIYUN_LOG_MEMORY_STORE" |}
                        (SLSClient.what made))
         (example.calls run)
    /\ length (example.printed run) <= 4
    /\ (example.raised run = None <-> length (example.printed run) = 4).
Proof.
  intros sdk environ run. subst run.
  destruct (SLSMemoryClient.__init__ sdk
              (example.Config (example.getenv environ "ALIYUN_LOG_ACCESS_KEY_ID")
                 (example.getenv environ "ALIYUN_LOG_ACCESS_KEY_SECRET")
                 (example.getenv environ "ALIYUN_LOG_ENDPOINT"))
              (example.getenv environ "ALIYUN_LOG_PROJECT")
              (example.getenv environ "ALIYUN_LOG_MEMORY_STORE"))
    as [client|e] eqn:Hclient.
  - rewrite (example_main_runs sdk environ client Hclient).
    cbn [example.calls example.printed example.raised].
    destruct (example_client_names _ _ _ _ _ Hclient) as (Hp & Hs & _).
    destruct (print_each_extends sdk client example_operations
                {| this := client; log := [] |} eq_refl) as (cs & Hcs & Hn & Hmade).
    destruct (print_each_printed (map (sync_perform sdk) example_operations)
                {| this := client; log := [] |}) as [Hcount Hall].
    rewrite Hcs. cbn [extend log app]. split; [exact Hn|].
    split; [|split; [exact Hcount | exact Hall]].
    eapply Forall_impl; [exact Hmade|]. intros made (Hhow & Hserves & Hto).
    split.
    + rewrite Hhow. destruct (SLSClient.what made); cbn in Hserves |- *;
        done.
    + intros handle. rewrite <- Hp, <- Hs.
      by destruct (SLSClient.what made).
  - unfold example.main. rewrite Hclient. cbn. repeat split; try lia; done.
Qed.

Lemma create_memory_store_returns sdk d ci g s ttl w v :
  let create :=
    SLSClient.Call SLSClient.Blocking
      (SLSClient.create_memory_store (_project (this w))
         {| cms_name := _memory_store (this w); cms_description := d;
            cms_custom_instructions := ci; cms_enable_graph := g; cms_strategy := s;
            cms_short_term_ttl := ttl |}) in
  let provision :=
    SLSClient.Call SLSClient.Blocking
      (SLSClient.create_project
         {| cp_project_name := _project (this w);
            cp_description := PStr "Auto-created by SLS Memory SDK" |}) in
  fst (SLSMemoryClient.create_memory_store sdk d ci g s ttl w) = Ok v ->
  snd (SLSMemoryClient.create_memory_store sdk d ci g s ttl w) = extend w [create]
  \/ snd (SLSMemoryClient.create_memory_store sdk d ci g s ttl w)
     = extend w [create; provision; create].
Proof.
  intros create provision. subst create provision. run_method.
  case_respond; cbn.
  - match goal with
    | |- context [contains "ProjectNotExist" ?t] =>
        destruct (contains "ProjectNotExist" t); cbn; [|done]
    end.
    case_respond; cbn; [done|]. case_respond; cbn; [done|].
    intros _. right. by rewrite <- !app_assoc.
  - intros _. by left.
Qed.

Lemma add_text_calls_once sdk text user_id agent_id app_id run_id metadata infer
  async_mode w :
  snd (SLSMemoryClient.add sdk (PStr text) user_id agent_id app_id run_id metadata infer
         async_mode w)
  = extend w
      [SLSClient.Call SLSClient.Blocking
         (SLSClient.add_memories (_project (this w)) (_memory_store (this w))
            {| add_messages := [{| msg_role := PStr "user"; msg_content := PStr text |}];
               add_user_id := user_id; add_agent_id := agent_id; add_app_id := app_id;
               add_run_id := run_id; add_metadata := metadata; add_infer := infer;
               add_custom_instructions := PNone; add_async_mode := async_mode |})].
Proof.
  run_method. cbn. case_respond; cbn; [done|]. by destruct (truthy (body _)).
Qed.

Lemma search_calls_once sdk query user_id agent_id app_id run_id top_k rerank w :
  truthy query = true ->
  snd (SLSMemoryClient.search sdk query user_id agent_id app_id run_id top_k rerank w)
  = extend w
      [SLSClient.Call SLSClient.Blocking
         (SLSClient.search_memories (_project (this w)) (_memory_store (this w))
            {| sm_query := query; sm_user_id := user_id; sm_agent_id := agent_id;
               sm_app_id := app_id; sm_run_id := run_id; sm_top_k := top_k;
               sm_rerank := rerank |})].
Proof.
  intros Hq. run_method. rewrite Hq. cbn. case_respond; cbn; [done|]. split_run; done.
Qed.

Lemma get_all_calls_once sdk user_id agent_id app_id run_id limit w :
  snd (SLSMemoryClient.get_all sdk user_id agent_id app_id run_id limit w)
  = extend w
      [SLSClient.Call SLSClient.Blocking
         (SLSClient.get_memories (_project (this w)) (_memory_store (this w))
            {| gm_user_id := user_id; gm_agent_id := agent_id; gm_app_id := app_id;
               gm_run_id := run_id; gm_limit := limit |})].
Proof. run_method. case_respond; cbn; [done|]. split_run; done. Qed.

(** X19: when nothing stops the example script, the calls it made are, in
    this order, the creation of the store (once, or once before and once
    after the creation of the project), one add_memories carrying the
    script's sentence as a single user message for user123 with infer and
    async_mode set, one search_memories for that user without reranking, and
    one get_memories for that user, all on the project and store of the
    environment. *)
Theorem example_calls_in_script_order :
  forall (sdk : SLSClient.t) (environ : string -> option string),
    example.raised (example.main sdk environ) = None ->
    let project := example.getenv environ "ALIYUN_LOG_PROJECT" in
    let store := example.getenv environ "ALIYUN_LOG_MEMORY_STORE" in
    let create :=
      SLSClient.Call SLSClient.Blocking
        (SLSClient.create_memory_store project
           {| cms_name := store; cms_description := PNone;
              cms_custom_instructions := PNone; cms_enable_graph := PBool false;
              cms_strategy := PStr "default"; cms_short_term_ttl := PInt 7 |}) in
    let provision :=
      SLSClient.Call SLSClient.Blocking
        (SLSClient.create_project
           {| cp_project_name := project;
              cp_description := PStr "Auto-created by SLS Memory SDK" |}) in
    let remember :=
      SLSClient.Call SLSClient.Blocking
        (SLSClient.add_memories project store
           {| add_messages :=
                [{| msg_role := PStr "user";
                    msg_content :=
                      PStr "我住在杭州，喜欢杭州的风景，经常会去西湖玩" |}];
              add_user_id := PStr "user123"; add_agent_id := PNone;
              add_app_id := PNone; add_run_id := PNone; add_metadata := PNone;
              add_infer := PBool true; add_custom_instructions := PNone;
              add_async_mode := PBool true |}) in
    let look_up :=
      SLSClient.Call SLSClient.Blocking
        (SLSClient.search_memories project store
           {| sm_query := PStr "我住在哪里？"; sm_user_id := PStr "user123";
              sm_agent_id := PNone; sm_app_id := PNone; sm_run_id := PNone;
              sm_top_k := PNone; sm_rerank := PBool false |}) in
    let list_all :=
      SLSClient.Call SLSClient.Blocking
        (SLSClient.get_memories project store
           {| gm_user_id := PStr "user123"; gm_agent_id := PNone; gm_app_id := PNone;
              gm_run_id := PNone; gm_limit := PNone |}) in
    example.calls (example.main sdk environ) = [create; remember; look_up; list_all]
    \/ example.calls (example.main sdk environ)
       = [create; provision; create; remember; look_up; list_all].
Proof.
  intros sdk environ Hdone project store create provision remember look_up list_all.
  subst project store create provision remember look_up list_all.
  destruct (SLSMemoryClient.__init__ sdk
              (example.Config (example.getenv environ "ALIYUN_LOG_ACCESS_KEY_ID")
                 (example.getenv environ "ALIYUN_LOG_ACCESS_KEY_SECRET")
                 (example.getenv environ "ALIYUN_LOG_ENDPOINT"))
              (example.getenv environ "ALIYUN_LOG_PROJECT")
              (example.getenv environ "ALIYUN_LOG_MEMORY_STORE"))
    as [client|e] eqn:Hclient;
    [|revert Hdone; unfold example.main; by rewrite Hclient].
  destruct (example_client_names _ _ _ _ _ Hclient) as (<- & <- & _).
  revert Hdone. rewrite (example_main_runs sdk environ client Hclient).
  cbn [example.raised example.calls].
  unfold example_operations. cbn [map example.print_each sync_perform].
  set (w0 := {| this := client; log := [] |}).
  pose proof (create_memory_store_returns sdk PNone PNone (PBool false) (PStr "default")
                (PInt 7) w0) as Hcreate.
  destruct (SLSMemoryClient.create_memory_store _ _ _ _ _ _ w0) as [[v1|e1] w1];
    [|discriminate].
  specialize (Hcreate v1 eq_refl). cbn [fst snd] in Hcreate.
  match goal with
  | |- context [SLSMemoryClient.add sdk (PStr ?t) ?u ?a ?p ?r ?md ?i ?am w1] =>
      pose proof (add_text_calls_once sdk t u a p r md i am w1) as Hadd;
      destruct (SLSMemoryClient.add sdk (PStr t) u a p r md i am w1) as [[v2|e2] w2];
      [|discriminate]
  end.
  match goal with
  | |- context [SLSMemoryClient.search sdk ?q ?u ?a ?p ?r ?k ?rr w2] =>
      pose proof (search_calls_once sdk q u a p r k rr w2 eq_refl) as Hsearch;
      destruct (SLSMemoryClient.search sdk q u a p r k rr w2) as [[v3|e3] w3];
      [|discriminate]
  end.
  match goal with
  | |- context [SLSMemoryClient.get_all sdk ?u ?a ?p ?r ?l w3] =>
      pose proof (get_all_calls_once sdk u a p r l w3) as Hall;
      destruct (SLSMemoryClient.get_all sdk u a p r l w3) as [[v4|e4] w4];
      [|discriminate]
  end.
  cbn [fst snd] in *. intros _. subst w4 w3 w2.
  destruct Hcreate as [-> | ->]; [left | right]; reflexivity.
Qed.

(** With the two names set and a service that answers everything. *)
Lemma example_calls_in_script_order_witness :
  length (example.calls (example.main steady_sdk names_only_environ)) = 4
  \/ length (example.calls (example.main steady_sdk names_only_environ)) = 6.
Proof.
  destruct (example_calls_in_script_order steady_sdk names_only_environ eq_refl)
    as [-> | ->]; [by left | by right].
Defined.

(** ** The messages of validation errors *)

Lemma sync_refusal_message sdk op w message :
  refusal_message op = Some message ->
  sync_perform sdk op w = (Raise (ValidationError message), w).
Proof.
  destruct op; cbn [refusal_message]; try discriminate; unfold_methods.
  - destruct messages; cbn; try discriminate; by intros [= <-].
  - destruct (truthy memory_id); cbn; [discriminate | by intros [= <-]].
  - destruct (truthy query); cbn; [discriminate | by intros [= <-]].
  - destruct (truthy memory_id); cbn; [|by intros [= <-]].
    destruct (is_None text && is_None metadata); [by intros [= <-] | discriminate].
  - destruct (truthy memory_id); cbn; [discriminate | by intros [= <-]].
  - destruct (truthy memory_id); cbn; [discriminate | by intros [= <-]].
Qed.

Lemma async_refusal_message sdk op w message :
  refusal_message op = Some message ->
  async_perform sdk op w = (Raise (ValidationError message), w).
Proof.
  destruct op; cbn [refusal_message]; try discriminate; unfold_methods.
  - destruct messages; cbn; try discriminate; by intros [= <-].
  - destruct (truthy memory_id); cbn; [discriminate | by intros [= <-]].
  - destruct (truthy query); cbn; [discriminate | by intros [= <-]].
  - destruct (truthy memory_id); cbn; [|by intros [= <-]].
    destruct (is_None text && is_None metadata); [by intros [= <-] | discriminate].
  - destruct (truthy memory_id); cbn; [discriminate | by intros [= <-]].
  - destruct (truthy memory_id); cbn; [discriminate | by intros [= <-]].
Qed.

Lemma refusal_message_iff_refused (op : operation) :
  is_Some (refusal_message op) <-> locally_refused op = true.
Proof.
  destruct op; cbn [refusal_message locally_refused];
    repeat match goal with
      | |- context [truthy ?v] => destruct (truthy v)
      | |- context [str_dict_or_list ?v] => destruct (str_dict_or_list v)
      | |- context [is_None ?v] => destruct (is_None v)
      end; cbn; split; try done; try (intros [? ?]; done); eauto.
Qed.

(** X20: the validation error of an operation says which argument is at
    fault, and the checks run in the order they are written: an operation
    raises a validation error exactly when its arguments call for one of the
    messages read off them, it raises that message, leaving everything as it
    was, and an update with an empty memory_id is told about the memory_id
    even when it has no text and no metadata either.  Both facades. *)
Theorem validation_errors_name_the_argument :
  forall (sdk : SLSClient.t) (op : operation) (w : World),
    (forall message,
       refusal_message op = Some message ->
       sync_perform sdk op w = (Raise (ValidationError message), w)
       /\ async_perform sdk op w = (Raise (ValidationError message), w))
    /\ (refusal_message op = None ->
        raises_ValidationError (fst (sync_perform sdk op w)) = false
        /\ raises_ValidationError (fst (async_perform sdk op w)) = false)
    /\ (forall memory_id,
          truthy memory_id = false ->
          refusal_message (op_update memory_id PNone PNone)
          = Some "memory_id is required").
Proof.
  intros sdk op w. split; [|split].
  - intros message Hmessage.
    split; [by apply sync_refusal_message | by apply async_refusal_message].
  - intros Hnone.
    rewrite sync_perform_refusal, async_perform_refusal.
    destruct (locally_refused op) eqn:Hrefused; [|done].
    apply refusal_message_iff_refused in Hrefused as [message Hmessage]. congruence.
  - intros memory_id Hid. cbn. by rewrite Hid.
Qed.

(** [update("")] and [add(42)]. *)
Lemma validation_errors_name_the_argument_witness :
  sync_perform steady_sdk (op_update (PStr "") PNone PNone) sample_world
  = (Raise (ValidationError "memory_id is required"), sample_world)
  /\ async_perform steady_sdk
       (op_add (PInt 42) PNone PNone PNone PNone PNone (PBool true) (PBool true))
       sample_world
     = (Raise (ValidationError "messages must be str, dict, or list[dict], got int"),
        sample_world).
Proof.
  split.
  - exact (proj1 (proj1 (validation_errors_name_the_argument steady_sdk
                           (op_update (PStr "") PNone PNone) sample_world) _ eq_refl)).
  - exact (proj2 (proj1 (validation_errors_name_the_argument steady_sdk
                           (op_add (PInt 42) PNone PNone PNone PNone PNone (PBool true)
                              (PBool true)) sample_world) _ eq_refl)).
Defined.
